(** * StabilityApp: the CSV loader and the PDF report generator

    A shallow embedding of [database/load_data.py] and
    [scripts/report_generator.py].  The two scripts share nothing but the
    database schema, so each one lives in a module of its own; the prelude
    holds what both need: Python exceptions, a few [str] methods, and
    [datetime] values. *)

From Stdlib Require Import QArith Ascii String.
From stdpp Require Import gmap strings list fin_maps sorting pretty.

Local Open Scope string_scope.
Local Open Scope Z_scope.

(** ** Python values shared by the two scripts *)

(** The constraint a rejected statement violated.  pyodbc maps every
    SQLSTATE 23000 failure to [pyodbc.IntegrityError], whatever the
    constraint was. *)
Inductive Constraint := PrimaryKey | NotNull | ForeignKey | CheckConstraint.

Inductive exn :=
| IntegrityError (c : Constraint)
| OperationalError
| KeyError (key : string)
| ValueError
| AttributeError
| TypeError.

Definition is_IntegrityError (e : exn) : bool :=
  match e with IntegrityError _ => true | _ => false end.

(** [datetime.datetime]: the clock reading and [tzinfo], the latter as an
    offset from UTC in minutes; a naive value has no [tzinfo]. *)
Record datetime := mk_datetime {
  year : Z; month : Z; day : Z;
  hour : Z; minute : Z; second : Z; microsecond : Z;
  tzinfo : option Z
}.


(** Characters are code points below 256.  [str.isspace] on that range. *)
Definition isspace (c : ascii) : bool :=
  let n := N_of_ascii c in
  (((9 <=? n) && (n <=? 13)) || ((28 <=? n) && (n <=? 32))
   || (n =? 133) || (n =? 160))%N.

Fixpoint lstrip (s : string) : string :=
  match s with
  | String c s' => if isspace c then lstrip s' else s
  | EmptyString => EmptyString
  end.

Fixpoint rstrip (s : string) : string :=
  match s with
  | String c s' =>
      match rstrip s' with
      | EmptyString => if isspace c then EmptyString else String c EmptyString
      | t => String c t
      end
  | EmptyString => EmptyString
  end.

(** [s.strip()] *)
Definition strip (s : string) : string := rstrip (lstrip s).

(** Truth value of a [str]: non-empty. *)
Definition truthy (s : string) : bool :=
  match s with EmptyString => false | _ => true end.

(** [s.replace(old, new)] for a non-empty [old]: occurrences are found left
    to right and do not overlap.  [skip] counts the characters of a matched
    occurrence still to be passed over. *)
Fixpoint replace_from (old new : string) (skip : nat) (s : string) : string :=
  match s with
  | EmptyString => EmptyString
  | String c s' =>
      match skip with
      | S k => replace_from old new k s'
      | O =>
          if String.prefix old s
          then new +:+ replace_from old new (String.length old - 1) s'
          else String c (replace_from old new 0 s')
      end
  end.

Definition replace (old new s : string) : string := replace_from old new 0 s.


(** Some character of [s] is not white space. *)
Fixpoint nonblank (s : string) : bool :=
  match s with
  | EmptyString => false
  | String c s' => negb (isspace c) || nonblank s'
  end.

(** ** database/load_data.py *)

Module LoadData.

(** A value read from the CSV by [pd.read_csv]: a missing or empty field
    is [NaN], text is [Str], and a numeric column gives [Int] or [Float],
    a finite float being the rational it denotes. *)
Inductive cell := NaN | Str (s : string) | Int (n : Z) | Float (x : Q).

(** [pd.notna] on a scalar *)
Definition notna (c : cell) : bool :=
  match c with NaN => false | _ => true end.

(** One row of the data frame, [row['column']].  Every column the loader
    reads is in the CSV header. *)
Definition Row := string -> cell.

(** [uuid.UUID] values, as their 128-bit integer *)
Definition UUID := Z.

(** *** The tables *)

Record Submission := mk_submission {
  submission_id : UUID;
  created_at : datetime;
  age_range_id : option Z;
  region_id : option Z;
  instability_ratio : option cell;
  first_name : option cell;
  last_name : option cell;
  email : option cell
}.

(** [(submission_id, indicator_id, score_value)] *)
Definition SubmissionScore : Type := UUID * Z * Z.

(** [(submission_id, status)] *)
Definition ReportRequest : Type := UUID * string.

Record Store := mk_store {
  Submissions : list Submission;
  SubmissionScores : list SubmissionScore;
  ReportRequests : list ReportRequest;
  AgeRanges : list (Z * string);
  Regions : list (Z * string);
  Indicators : list (Z * string)
}.

(** What the loader sends to the server. *)
Inductive Statement :=
| InsertSubmission (s : Submission)
| InsertSubmissionScore (r : SubmissionScore)
| InsertReportRequest (sid : UUID)
| SelectAgeRanges
| SelectRegions
| SelectIndicators
| Commit.

(** What lies outside the script: the library parsers on strings ([None]
    where they raise [ValueError]), and the server's reasons to reject a
    statement other than the primary key of [Submissions] (the table
    constraints of a schema that is not part of the script, a lost
    connection). *)
Record Environment := mk_environment {
  uuid_of_str : string -> option UUID;
  fromisoformat : string -> option datetime;
  int_of_str : string -> option Z;
  rejects : Store -> Statement -> option exn
}.

Definition insert_submission (s : Submission) (st : Store) : Store :=
  mk_store (Submissions st ++ [s]) (SubmissionScores st) (ReportRequests st)
           (AgeRanges st) (Regions st) (Indicators st).

Definition insert_score (r : SubmissionScore) (st : Store) : Store :=
  mk_store (Submissions st) (SubmissionScores st ++ [r]) (ReportRequests st)
           (AgeRanges st) (Regions st) (Indicators st).

Definition insert_report_request (r : ReportRequest) (st : Store) : Store :=
  mk_store (Submissions st) (SubmissionScores st) (ReportRequests st ++ [r])
           (AgeRanges st) (Regions st) (Indicators st).

Definition has_submission (sid : UUID) (st : Store) : bool :=
  existsb (fun s => Z.eqb (submission_id s) sid) (Submissions st).

(** [cursor.execute] of an INSERT: the store after it, or the exception.
    [submission_id] is the primary key of [Submissions]. *)
Definition execute (env : Environment) (st : Store) (q : Statement) : exn + Store :=
  match rejects env st q with
  | Some e => inl e
  | None =>
      match q with
      | InsertSubmission s =>
          if has_submission (submission_id s) st
          then inl (IntegrityError PrimaryKey)
          else inr (insert_submission s st)
      | InsertSubmissionScore r => inr (insert_score r st)
      | InsertReportRequest sid => inr (insert_report_request (sid, "completed") st)
      | _ => inr st
      end
  end.

(** [cursor.execute] of a SELECT on a lookup table, then [fetchall]. *)
Definition fetchall (env : Environment) (st : Store) (q : Statement)
  : exn + list (Z * string) :=
  match rejects env st q with
  | Some e => inl e
  | None =>
      match q with
      | SelectAgeRanges => inr (AgeRanges st)
      | SelectRegions => inr (Regions st)
      | SelectIndicators => inr (Indicators st)
      | _ => inr []
      end
  end.

(** [{row.label: row.id for row in rows}]: a later row overwrites. *)
Definition dict_of_rows (rows : list (Z * string)) : gmap string Z :=
  foldl (fun d r => <[r.2 := r.1]> d) ∅ rows.

(** [d.get(c)]: the keys are strings, no other value is found. *)
Definition dict_get (d : gmap string Z) (c : cell) : option Z :=
  match c with Str s => d !! s | _ => None end.

(** *** The connection and the state of a run *)

Record Connection := mk_connection {
  durable : Store;   (* what is committed *)
  pending : Store    (* what the open transaction sees *)
}.

Definition conn_commit (c : Connection) : Connection :=
  mk_connection (pending c) (pending c).

Definition conn_rollback (c : Connection) : Connection :=
  mk_connection (durable c) (durable c).

Inductive Output :=
| Line (s : string)
| Found (n : nat)
| ShowDict (name : string) (d : gmap string Z)
| Processed (index : nat)
| SubmissionsLoaded (n : nat)
| ScoresLoaded (n : nat)
| Error (e : exn).

Inductive Call := CallCommit | CallRollback | CallClose.

Record Loader := mk_loader {
  conn : Connection;
  submissions_loaded : nat;
  scores_loaded : nat;
  stdout : list Output;
  calls : list Call
}.

Definition set_pending (st : Store) (l : Loader) : Loader :=
  mk_loader (mk_connection (durable (conn l)) st)
            (submissions_loaded l) (scores_loaded l) (stdout l) (calls l).

Definition print (o : Output) (l : Loader) : Loader :=
  mk_loader (conn l) (submissions_loaded l) (scores_loaded l)
            (stdout l ++ [o]) (calls l).

Definition count_submission (l : Loader) : Loader :=
  mk_loader (conn l) (S (submissions_loaded l)) (scores_loaded l)
            (stdout l) (calls l).

Definition count_score (l : Loader) : Loader :=
  mk_loader (conn l) (submissions_loaded l) (S (scores_loaded l))
            (stdout l) (calls l).

(** Where control is after a step: at the next statement, or unwinding
    with an exception.  The state survives in both. *)
Inductive outcome :=
| Next (l : Loader)
| Raised (e : exn) (l : Loader).

Definition bind (o : outcome) (k : Loader -> outcome) : outcome :=
  match o with Next l => k l | Raised e l => Raised e l end.

Notation "o >>> k" := (bind o k) (at level 61, left associativity).

Definition cursor_execute (env : Environment) (q : Statement) (l : Loader) : outcome :=
  match execute env (pending (conn l)) q with
  | inr st => Next (set_pending st l)
  | inl e => Raised e l
  end.

(** *** One row *)

(** [uuid.UUID(row['id'])] under [except Exception]: [None] when it raises,
    as it does on whatever is not a well-formed string. *)
Definition parse_uuid (env : Environment) (c : cell) : option UUID :=
  match c with Str s => uuid_of_str env s | _ => None end.

(** [datetime.fromisoformat(row['created_at'].replace('+00:00', ''))] *)
Definition parse_created_at (env : Environment) (c : cell) : exn + datetime :=
  match c with
  | Str s =>
      match fromisoformat env (replace "+00:00" "" s) with
      | Some d => inr d
      | None => inl ValueError
      end
  | _ => inl AttributeError
  end.

(** [dict.get(row[col]) if pd.notna(row[col]) else None] *)
Definition lookup_id (d : gmap string Z) (c : cell) : option Z :=
  if notna c then dict_get d c else None.

(** [row[col] if pd.notna(row[col]) else None] *)
Definition param (c : cell) : option cell :=
  if notna c then Some c else None.

(** [int(row[col])]: a float is truncated towards zero. *)
Definition int (env : Environment) (c : cell) : exn + Z :=
  match c with
  | Int n => inr n
  | Float x => inr (Z.quot (Qnum x) (Z.pos (Qden x)))
  | Str s =>
      match int_of_str env s with
      | Some n => inr n
      | None => inl ValueError
      end
  | NaN => inl ValueError
  end.

Definition indicator_mapping : list (string * string) :=
  [ ("economic_management_rate", "Economic Management");
    ("immigration_policy_rate", "Immigration Policy");
    ("foreign_policy_rate", "Foreign Policy");
    ("domestic_policy_rate", "Domestic Policy");
    ("social_policy_rate", "Social Policy") ].

(** A [for] loop whose body may raise. *)
Fixpoint for_each {A : Type} (body : A -> Loader -> outcome) (xs : list A)
    (l : Loader) : outcome :=
  match xs with
  | [] => Next l
  | x :: xs' => body x l >>> for_each body xs'
  end.

(** The body of the loop over [indicator_mapping.items()].  The arguments
    of [cursor.execute] are evaluated left to right: the indicator is
    looked up before the score is cast. *)
Definition insert_score_of (env : Environment) (indicators : gmap string Z)
    (row : Row) (sid : UUID) (item : string * string) (l : Loader) : outcome :=
  let '(csv_col, indicator_name) := item in
  if notna (row csv_col) then
    match indicators !! indicator_name with
    | None => Raised (KeyError indicator_name) l
    | Some indicator_id =>
        match int env (row csv_col) with
        | inl e => Raised e l
        | inr score_value =>
            cursor_execute env
              (InsertSubmissionScore (sid, indicator_id, score_value)) l
            >>> fun l' => Next (count_score l')
        end
    end
  else Next l.

(** [if pd.notna(row['email']) and row['email'].strip(): ...] *)
Definition insert_report_request_of (env : Environment) (row : Row) (sid : UUID)
    (l : Loader) : outcome :=
  if notna (row "email") then
    match row "email" with
    | Str s =>
        if truthy (strip s) then cursor_execute env (InsertReportRequest sid) l
        else Next l
    | _ => Raised AttributeError l
    end
  else Next l.

Record Caches := mk_caches {
  age_ranges : gmap string Z;
  regions : gmap string Z;
  indicators : gmap string Z
}.

Definition submission_of (c : Caches) (row : Row) (sid : UUID) (d : datetime)
  : Submission :=
  mk_submission sid d
    (lookup_id (age_ranges c) (row "age_range"))
    (lookup_id (regions c) (row "region"))
    (param (row "instability_ratio"))
    (param (row "first_name"))
    (param (row "last_name"))
    (param (row "email")).

Definition progress (index : nat) (l : Loader) : Loader :=
  if (index mod 50 =? 0)%nat then print (Processed index) l else l.

(** The body of [for index, row in df.iterrows()].  [Next] is both the
    normal end of the body and [continue]. *)
Definition process_row (env : Environment) (c : Caches) (ir : nat * Row)
    (l0 : Loader) : outcome :=
  let '(index, row) := ir in
  let l := progress index l0 in
  match parse_uuid env (row "id") with
  | None => Next l
  | Some sid =>
      match parse_created_at env (row "created_at") with
      | inl e => Raised e l
      | inr d =>
          match cursor_execute env (InsertSubmission (submission_of c row sid d)) l with
          | Raised (IntegrityError _) l1 => Next l1
          | Raised e l1 => Raised e l1
          | Next l1 =>
              for_each (insert_score_of env (indicators c) row sid)
                       indicator_mapping (count_submission l1)
              >>> insert_report_request_of env row sid
          end
      end
  end.

(** *** The run *)

Definition iterrows (df : list Row) : list (nat * Row) := imap pair df.

Definition call (c : Call) (l : Loader) : Loader :=
  mk_loader (conn l) (submissions_loaded l) (scores_loaded l)
            (stdout l) (calls l ++ [c]).

Definition set_conn (c : Connection) (l : Loader) : Loader :=
  mk_loader c (submissions_loaded l) (scores_loaded l) (stdout l) (calls l).

(** [conn.commit()] *)
Definition commit (env : Environment) (l : Loader) : outcome :=
  let l' := call CallCommit l in
  match rejects env (pending (conn l')) Commit with
  | Some e => Raised e l'
  | None => Next (set_conn (conn_commit (conn l')) l')
  end.

(** [conn.rollback()] and [conn.close()] are taken to succeed. *)
Definition rollback (l : Loader) : Loader :=
  set_conn (conn_rollback (conn l)) (call CallRollback l).

Definition close (l : Loader) : Loader := call CallClose l.

(** Build one of the three dictionaries and print it. *)
Definition load_dict (env : Environment) (q : Statement) (name : string)
    (l : Loader) : exn + gmap string Z * Loader :=
  match fetchall env (pending (conn l)) q with
  | inl e => inl e
  | inr rows =>
      let d := dict_of_rows rows in inr (d, print (ShowDict name d) l)
  end.

(** The [try] block. *)
Definition try_block (env : Environment) (df : list Row) (l0 : Loader) : outcome :=
  let l := print (Line "3. Loading lookup tables...") l0 in
  match load_dict env SelectAgeRanges "Age ranges" l with
  | inl e => Raised e l
  | inr (age_ranges, l1) =>
      match load_dict env SelectRegions "Regions" l1 with
      | inl e => Raised e l1
      | inr (regions, l2) =>
          match load_dict env SelectIndicators "Indicators" l2 with
          | inl e => Raised e l2
          | inr (indicators, l3) =>
              let c := mk_caches age_ranges regions indicators in
              for_each (process_row env c) (iterrows df)
                       (print (Line "4. Processing submissions...") l3)
              >>> commit env
              >>> fun l4 =>
                    Next (print (ScoresLoaded (scores_loaded l4))
                         (print (SubmissionsLoaded (submissions_loaded l4))
                         (print (Line "5. Data loading completed!") l4)))
          end
      end
  end.

Definition connect (df : list Row) (db : Store) : Loader :=
  mk_loader (mk_connection db db) 0 0
    [Line "1. Reading CSV file..."; Found (length df);
     Line "2. Connecting to database..."] [].

(** The [except Exception as e] clause. *)
Definition except (o : outcome) : Loader :=
  match o with
  | Next l => l
  | Raised e l => print (Error e) (rollback l)
  end.

(** [load_survey_data()], from the data frame and the database it
    connects to, to the state it ends in: [durable (conn _)] is the
    database it leaves behind. *)
Definition load_survey_data (env : Environment) (df : list Row) (db : Store)
  : Loader :=
  close (except (try_block env df (connect df db))).

(** *** Vocabulary of the properties *)

(** The state an outcome carries. *)
Definition state (o : outcome) : Loader :=
  match o with Next l => l | Raised _ l => l end.

(** The score row a column of [indicator_mapping] gives rise to: none for
    a column without a value. *)
Definition score_row (env : Environment) (indicators : gmap string Z)
    (row : Row) (sid : UUID) (item : string * string) : option SubmissionScore :=
  if notna (row item.1) then
    match indicators !! item.2, int env (row item.1) with
    | Some indicator_id, inr score_value => Some (sid, indicator_id, score_value)
    | _, _ => None
    end
  else None.

(** From [l] to [l'] the transaction stayed open: nothing was committed
    and no method of the connection was called. *)
Definition in_tx (l l' : Loader) : Prop :=
  durable (conn l') = durable (conn l) /\ calls l' = calls l.

(** The dictionaries built from the lookup tables of a store. *)
Definition caches_of (st : Store) : Caches :=
  mk_caches (dict_of_rows (AgeRanges st)) (dict_of_rows (Regions st))
            (dict_of_rows (Indicators st)).

(** The email is present and has a character that is not white space. *)
Definition email_given (c : cell) : bool :=
  match c with Str s => nonblank s | _ => false end.

(** [st'] is [st] with rows appended to its three data tables. *)
Definition appended (st st' : Store) (subs : list Submission)
    (scores : list SubmissionScore) (reqs : list ReportRequest) : Prop :=
  Submissions st' = (Submissions st ++ subs)%list
  /\ SubmissionScores st' = (SubmissionScores st ++ scores)%list
  /\ ReportRequests st' = (ReportRequests st ++ reqs)%list.

(** [st] with rows appended to its data tables; the lookup tables stay as
    they are. *)
Definition grow (st : Store) (subs : list Submission)
    (scores : list SubmissionScore) (reqs : list ReportRequest) : Store :=
  mk_store (Submissions st ++ subs) (SubmissionScores st ++ scores)
           (ReportRequests st ++ reqs)
           (AgeRanges st) (Regions st) (Indicators st).

(** From [l] to [l'] the open transaction gained these rows, and the two
    counters counted them. *)
Definition effect (l l' : Loader) (subs : list Submission)
    (scores : list SubmissionScore) (reqs : list ReportRequest) : Prop :=
  pending (conn l') = grow (pending (conn l)) subs scores reqs
  /\ submissions_loaded l' = (submissions_loaded l + length subs)%nat
  /\ scores_loaded l' = (scores_loaded l + length scores)%nat.

(** Rows that fit together and fit the store [st] they are added to: the
    submissions are new and distinct, every score belongs to one of them,
    and the report requests, all "completed", follow the submissions in
    their order, at most one each. *)
Definition consistent (st : Store) (subs : list Submission)
    (scores : list SubmissionScore) (reqs : list ReportRequest) : Prop :=
  NoDup (submission_id <$> subs)
  /\ Forall (fun s => has_submission (submission_id s) st = false) subs
  /\ Forall (fun r : SubmissionScore => r.1.1 ∈ submission_id <$> subs) scores
  /\ Forall (fun r : ReportRequest => r.2 = "completed") reqs
  /\ reqs.*1 `sublist_of` (submission_id <$> subs)
  /\ (length scores <= 5 * length subs)%nat.

(** The IDs in [Submissions]. *)
Definition ids (st : Store) : list UUID := submission_id <$> Submissions st.

(** Every score and every report request belongs to a submission of the
    store. *)
Definition referenced (st : Store) : Prop :=
  Forall (fun r : SubmissionScore => r.1.1 ∈ ids st) (SubmissionScores st)
  /\ Forall (fun r : ReportRequest => r.1 ∈ ids st) (ReportRequests st).

(** The state in which the loop starts: the dictionaries have been built
    from the lookup tables and printed. *)
Definition loop_start (l0 : Loader) : Loader :=
  print (Line "4. Processing submissions...")
    (print (ShowDict "Indicators" (dict_of_rows (Indicators (pending (conn l0)))))
       (print (ShowDict "Regions" (dict_of_rows (Regions (pending (conn l0)))))
          (print (ShowDict "Age ranges" (dict_of_rows (AgeRanges (pending (conn l0)))))
             (print (Line "3. Loading lookup tables...") l0)))).

(** The progress lines of a loop over [n] rows: one for every fiftieth
    index, from 0. *)
Definition progress_lines (n : nat) : list Output :=
  Processed <$> List.filter (fun index => (index mod 50 =? 0)%nat) (seq 0 n).

End LoadData.

(** ** scripts/report_generator.py *)

Module ReportGenerator.

(** A row of [Submissions] as pyodbc returns it: a NULL column is [None].
    [created_at] is the one column the schema never leaves NULL. *)
Record Submission := mk_submission {
  submission_id : string;
  created_at : datetime;
  instability_ratio : option Q;
  first_name : option string;
  last_name : option string;
  email : option string;
  age_range_id : option Z;
  region_id : option Z
}.

Record Database := mk_database {
  Submissions : list Submission;
  SubmissionScores : list (string * Z * Z);
  Indicators : list (Z * string);
  AgeRanges : list (Z * string);
  Regions : list (Z * string)
}.

(** The position of a clock reading in time, for [ORDER BY created_at]:
    the fields in mixed radix, which orders valid readings
    chronologically. *)
Definition ordinal (d : datetime) : Z :=
  (((((year d * 12 + (month d - 1)) * 31 + (day d - 1)) * 24 + hour d) * 60
    + minute d) * 60 + second d) * 1000000 + microsecond d.

(** [a] comes before [b] under [ORDER BY created_at DESC]. *)
Definition created_desc (a b : Submission) : Prop :=
  ordinal (created_at b) <= ordinal (created_at a).

Global Instance created_desc_dec a b : Decision (created_desc a b).
Proof. unfold created_desc. apply _. Defined.

Global Instance created_desc_total : Total created_desc.
Proof. intros a b. unfold created_desc. lia. Qed.

Global Instance created_desc_trans : Transitive created_desc.
Proof. intros a b c. unfold created_desc. lia. Qed.

Definition has_email (s : Submission) : bool :=
  match email s with Some _ => true | None => false end.

(** [SELECT TOP 1 submission_id FROM Submissions WHERE email IS NOT NULL
    ORDER BY created_at DESC], then [fetchone()] *)
Definition select_latest_with_email (db : Database) : option string :=
  submission_id <$>
    head (merge_sort created_desc (List.filter has_email (Submissions db))).

(** The label a LEFT JOIN on a lookup table brings: none for a NULL
    reference and for a reference without a row. *)
Definition left_join (table : list (Z * string)) (ref : option Z) : option string :=
  match ref with
  | Some k => snd <$> List.find (fun r => Z.eqb r.1 k) table
  | None => None
  end.

(** The row of the second query. *)
Record Detail := mk_detail {
  fields : Submission;
  age_range_label : option string;
  region_name : option string
}.

Definition select_detail (db : Database) (sid : string) : option Detail :=
  (fun s => mk_detail s (left_join (AgeRanges db) (age_range_id s))
                        (left_join (Regions db) (region_id s)))
  <$> List.find (fun s => String.eqb (submission_id s) sid) (Submissions db).

(** The rows of the third query: scores joined to their indicator. *)
Definition select_scores (db : Database) (sid : string) : list (string * Z) :=
  flat_map
    (fun ss : string * Z * Z =>
       let '(ssid, indicator_id, score_value) := ss in
       if String.eqb ssid sid then
         (fun i : Z * string => (i.2, score_value))
         <$> List.filter (fun i : Z * string => Z.eqb i.1 indicator_id) (Indicators db)
       else [])
    (SubmissionScores db).

(** [d[k] = v] on a [dict]: a key keeps the place of its first insertion. *)
Fixpoint dict_set (k : string) (v : Z) (d : list (string * Z)) : list (string * Z) :=
  match d with
  | [] => [(k, v)]
  | (k', v') :: d' =>
      if String.eqb k' k then (k, v) :: d' else (k', v') :: dict_set k v d'
  end.

(** [{row.indicator_name: row.score_value for row in rows}] *)
Definition dict_of_rows (rows : list (string * Z)) : list (string * Z) :=
  foldl (fun d r => dict_set r.1 r.2 d) [] rows.

(** [x or default] for a value that is [None] or a [str] *)
Definition or_else (x : option string) (default : string) : string :=
  match x with
  | Some s => if truthy s then s else default
  | None => default
  end.

Definition zero_pad (width : nat) (s : string) : string :=
  string_of_list_ascii (repeat "0"%char (width - String.length s)) +:+ s.

(** [d.strftime('%Y-%m-%d')] *)
Definition strftime_Ymd (d : datetime) : string :=
  zero_pad 4 (pretty (year d)) +:+ "-" +:+ zero_pad 2 (pretty (month d))
  +:+ "-" +:+ zero_pad 2 (pretty (day d)).

(** The nearest integer, ties to even, of [num / den]. *)
Definition round_half_even (num : Z) (den : positive) : Z :=
  let q := num `div` Z.pos den in
  let r := num `mod` Z.pos den in
  match 2 * r ?= Z.pos den with
  | Lt => q
  | Gt => q + 1
  | Eq => if Z.even q then q else q + 1
  end.

(** [f"{x:.2f}"].  [None] has no such format: [TypeError]. *)
Definition format_2f (x : option Q) : exn + string :=
  match x with
  | None => inl TypeError
  | Some x =>
      let n := Z.abs (round_half_even (Qnum x * 100) (Qden x)) in
      inr ((if (Qnum x <? 0)%Z then "-" else "")
           +:+ pretty (n `div` 100) +:+ "." +:+ zero_pad 2 (pretty (n `mod` 100)))
  end.

(** The two tables of the document. *)
Definition user_data (submission : Detail) : list (list string) :=
  [ ["Name:"; or_else (first_name (fields submission)) "N/A" +:+ " "
              +:+ or_else (last_name (fields submission)) ""];
    ["Email:"; or_else (email (fields submission)) "N/A"];
    ["Submission Date:"; strftime_Ymd (created_at (fields submission))];
    ["Region:"; or_else (region_name submission) "N/A"];
    ["Age Range:"; or_else (age_range_label submission) "N/A"] ].

Definition score_data (submission : Detail) (scores : list (string * Z))
  : exn + list (list string) :=
  let rows :=
    ["Indicator"; "Score"]
    :: ((fun item : string * Z => [item.1; pretty item.2]) <$> scores) in
  match format_2f (instability_ratio (fields submission)) with
  | inl e => inl e
  | inr ratio => inr (rows ++ [["Instability Ratio"; ratio]])%list
  end.

Record Pdf := mk_pdf {
  filename : string;
  user_table : list (list string);
  score_table : list (list string)
}.

(** What a run leaves: the lines printed, the files written, and the
    exception it ended with, if any. *)
Record Run := mk_run {
  stdout : list string;
  files : list Pdf;
  raised : option exn
}.

(** [generate_sample_report()] *)
Definition generate_sample_report (db : Database) : Run :=
  let out := ["Generating sample PDF report..."] in
  match select_latest_with_email db with
  | None => mk_run (out ++ ["No submissions with email found!"])%list [] None
  | Some sid =>
      match select_detail db sid with
      | None => mk_run out [] (Some AttributeError)
      | Some submission =>
          let scores := dict_of_rows (select_scores db sid) in
          let filename := "stability_report_" +:+ sid +:+ ".pdf" in
          match score_data submission scores with
          | inl e => mk_run out [] (Some e)
          | inr table =>
              mk_run (out ++ ["PDF report generated: " +:+ filename])%list
                     [mk_pdf filename (user_data submission) table] None
          end
      end
  end.

End ReportGenerator.

(** ** A concrete environment and sample data

    Parsers for the canonical forms of the three library calls, a server
    without further constraints, and one whose schema declares
    [first_name] NOT NULL. *)

Module Sample.
Import LoadData.

Definition digit_of (base : Z) (c : ascii) : option Z :=
  let n := Z.of_N (N_of_ascii c) in
  let v :=
    if (48 <=? n) && (n <=? 57) then n - 48
    else if (97 <=? n) && (n <=? 102) then n - 87
    else if (65 <=? n) && (n <=? 70) then n - 55
    else base in
  if v <? base then Some v else None.

Fixpoint number_from (base acc : Z) (s : string) : option Z :=
  match s with
  | EmptyString => Some acc
  | String c s' =>
      match digit_of base c with
      | Some v => number_from base (acc * base + v) s'
      | None => None
      end
  end.

Definition number (base : Z) (s : string) : option Z :=
  match s with
  | EmptyString => None
  | _ => number_from base 0 s
  end.

(** [uuid.UUID(s)] on 32 hexadecimal digits, hyphens dropped *)
Definition uuid_hex (s : string) : option UUID :=
  let hex := replace "-" "" s in
  if (String.length hex =? 32)%nat then number 16 hex else None.

Definition char_is (i : nat) (c : ascii) (s : string) : bool :=
  match String.get i s with
  | Some c' => Ascii.eqb c c'
  | None => false
  end.

(** [datetime.fromisoformat] on [YYYY-MM-DDTHH:MM:SS] with an optional
    [+HH:MM] or [-HH:MM] offset *)
Definition iso_seconds (s : string) : option datetime :=
  let n := String.length s in
  if ((n =? 19)%nat || (n =? 25)%nat)
     && char_is 4 "-" s && char_is 7 "-" s && char_is 10 "T" s
     && char_is 13 ":" s && char_is 16 ":" s
  then
    y ← number 10 (substring 0 4 s);
    mo ← number 10 (substring 5 2 s);
    d ← number 10 (substring 8 2 s);
    h ← number 10 (substring 11 2 s);
    mi ← number 10 (substring 14 2 s);
    se ← number 10 (substring 17 2 s);
    tz ← (if (n =? 19)%nat then Some None
          else
            oh ← number 10 (substring 20 2 s);
            om ← number 10 (substring 23 2 s);
            if char_is 22 ":" s then
              if char_is 19 "+" s then Some (Some (oh * 60 + om))
              else if char_is 19 "-" s then Some (Some (- (oh * 60 + om)))
              else None
            else None);
    Some (mk_datetime y mo d h mi se 0 tz)
  else None.

Definition int_decimal (s : string) : option Z :=
  match s with
  | String "-" s' => Z.opp <$> number 10 s'
  | _ => number 10 s
  end.

Definition accepts_all (st : Store) (q : Statement) : option exn := None.

Definition first_name_not_null (st : Store) (q : Statement) : option exn :=
  match q with
  | InsertSubmission s =>
      match first_name s with
      | None => Some (IntegrityError NotNull)
      | Some _ => None
      end
  | _ => None
  end.

Definition env : Environment :=
  mk_environment uuid_hex iso_seconds int_decimal accepts_all.

Definition strict_env : Environment :=
  mk_environment uuid_hex iso_seconds int_decimal first_name_not_null.

(** A row from its filled columns; the others are missing. *)
Fixpoint row_of (filled : list (string * cell)) : Row :=
  fun col =>
    match filled with
    | [] => NaN
    | (k, v) :: rest => if String.eqb k col then v else row_of rest col
    end.

Definition db0 : Store :=
  mk_store [] [] []
    [(1, "18-24"); (2, "25-34")]
    [(1, "North"); (2, "South")]
    [(1, "Economic Management"); (2, "Immigration Policy");
     (3, "Foreign Policy"); (4, "Domestic Policy"); (5, "Social Policy")].

(** The store with the [Indicators] table short of one label. *)
Definition db_short : Store :=
  mk_store [] [] [] (AgeRanges db0) (Regions db0)
    [(1, "Economic Management"); (2, "Immigration Policy")].

Definition caches0 : Caches := caches_of db0.

Definition caches_short : Caches := caches_of db_short.

Definition loader0 (db : Store) : Loader :=
  mk_loader (mk_connection db db) 0 0 [] [].

(** The scenario row of the specification. *)
Definition row_scenario : Row :=
  row_of [ ("id", Str "3fa85f64-5717-4562-b3fc-2c963f66afa6");
           ("created_at", Str "2024-01-15T10:00:00+00:00");
           ("instability_ratio", Float (42 # 100));
           ("economic_management_rate", Int 3);
           ("email", Str "a@b.com") ].

Definition row_full : Row :=
  row_of [ ("id", Str "11111111-2222-3333-4444-555555555555");
           ("created_at", Str "2024-02-01T08:30:00");
           ("age_range", Str "25-34");
           ("region", Str "Atlantis");
           ("first_name", Str "Ada");
           ("economic_management_rate", Int 3);
           ("immigration_policy_rate", Float (5 # 2));
           ("foreign_policy_rate", Int 1);
           ("domestic_policy_rate", Float (4 # 1));
           ("social_policy_rate", Int 5);
           ("email", Str "   ") ].

Definition row_bad_id : Row :=
  row_of [ ("id", Str "not-a-uuid");
           ("created_at", Str "2024-01-15T10:00:00");
           ("email", Str "x@y.org") ].

Definition sid_scenario : UUID := 0x3fa85f6457174562b3fc2c963f66afa6.
Definition sid_full : UUID := 0x11111111222233334444555555555555.

(** A store that already holds the scenario submission and its rows. *)
Definition db_loaded : Store :=
  mk_store
    [mk_submission sid_scenario (mk_datetime 2024 1 15 10 0 0 0 None)
       None None (Some (Float (42 # 100))) None None (Some (Str "a@b.com"))]
    [(sid_scenario, 1, 3)]
    [(sid_scenario, "completed")]
    (AgeRanges db0) (Regions db0) (Indicators db0).

(** A server whose schema refuses every report request. *)
Definition report_requests_rejected (st : Store) (q : Statement) : option exn :=
  match q with
  | InsertReportRequest _ => Some (IntegrityError ForeignKey)
  | _ => None
  end.

Definition fk_env : Environment :=
  mk_environment uuid_hex iso_seconds int_decimal report_requests_rejected.

Definition row_no_timestamp : Row :=
  row_of [ ("id", Str "aaaaaaaa-bbbb-cccc-dddd-eeeeeeeeeeee");
           ("email", Str "z@y.org") ].

Definition row_bad_timestamp : Row :=
  row_of [ ("id", Str "aaaaaaaa-bbbb-cccc-dddd-eeeeeeeeeeee");
           ("created_at", Str "15/01/2024 10:00") ].


End Sample.

Module SampleReport.
Import ReportGenerator.

Definition ada : Submission :=
  mk_submission "3FA85F64-5717-4562-B3FC-2C963F66AFA6"
    (mk_datetime 2024 1 15 10 0 0 0 None) (Some (42 # 100))
    (Some "Ada") None (Some "ada@example.org") None (Some 7).

Definition bob : Submission :=
  mk_submission "11111111-2222-3333-4444-555555555555"
    (mk_datetime 2024 3 2 9 0 0 0 None) None
    None (Some "Byron") None (Some 1) (Some 2).

Definition cy : Submission :=
  mk_submission "99999999-2222-3333-4444-555555555555"
    (mk_datetime 2023 12 31 23 59 59 0 None) None
    (Some "Cy") (Some "Young") (Some "cy@example.org") (Some 2) None.

Definition tables (subs : list Submission) : Database :=
  mk_database subs
    [("3FA85F64-5717-4562-B3FC-2C963F66AFA6", 1, 3);
     ("3FA85F64-5717-4562-B3FC-2C963F66AFA6", 3, -2);
     ("99999999-2222-3333-4444-555555555555", 1, 5);
     ("3FA85F64-5717-4562-B3FC-2C963F66AFA6", 1, 4)]
    [(1, "Economic Management"); (2, "Immigration Policy"); (3, "Foreign Policy")]
    [(1, "18-24"); (2, "25-34")]
    [(1, "North"); (2, "South")].

(** Ada is the latest submission with an email. *)
Definition db_ada : Database := tables [cy; ada; bob].

(** Cy is: the instability ratio of that row is NULL. *)
Definition db_cy : Database := tables [cy; bob].

(** No row has an email. *)
Definition db_none : Database := tables [bob].

(** Ada's row with another row that has no email. *)
Definition db_ada_bob : Database := tables [ada; bob].

(** The file written for Ada. *)
Definition pdf_ada : Pdf :=
  mk_pdf "stability_report_3FA85F64-5717-4562-B3FC-2C963F66AFA6.pdf"
    [ ["Name:"; "Ada "]; ["Email:"; "ada@example.org"];
      ["Submission Date:"; "2024-01-15"];
      ["Region:"; "N/A"]; ["Age Range:"; "N/A"] ]
    [ ["Indicator"; "Score"]; ["Economic Management"; "4"];
      ["Foreign Policy"; "-2"]; ["Instability Ratio"; "0.42"] ].

(** Two rows under Ada's ID: an older one without email first. *)
Definition ada_shadow : Submission :=
  mk_submission "3FA85F64-5717-4562-B3FC-2C963F66AFA6"
    (mk_datetime 2020 5 5 5 5 5 0 None) (Some (7 # 1))
    (Some "Shadow") None None None None.

Definition db_shadow : Database := tables [ada_shadow; ada].

End SampleReport.

(** * Properties of the loader *)

Module LoadDataSpec.
Import LoadData.

(** ** Strings *)

Example replace_utc :
  replace "+00:00" "" "2024-01-15T10:00:00+00:00" = "2024-01-15T10:00:00".
Proof. reflexivity. Qed.

Example replace_does_not_overlap : replace "aa" "b" "aaa" = "ba".
Proof. reflexivity. Qed.

Example strip_both_ends : strip "  a@b.com " = "a@b.com".
Proof. reflexivity. Qed.

Lemma rstrip_keeps_head c t : isspace c = false -> truthy (rstrip (String c t)) = true.
Proof.
  intros Hc. cbn [rstrip]. destruct (rstrip t); [rewrite Hc|]; reflexivity.
Qed.

(** [s.strip()] is non-empty exactly when [s] has a character that is not
    white space. *)
Lemma truthy_strip s : truthy (strip s) = nonblank s.
Proof.
  unfold strip. induction s as [|c s IH]; [reflexivity|].
  cbn [lstrip nonblank]. destruct (isspace c) eqn:Hc; cbn [negb orb].
  - exact IH.
  - apply rstrip_keeps_head, Hc.
Qed.




(** ** What a step leaves alone *)

Lemma in_tx_refl l : in_tx l l.
Proof. split; reflexivity. Qed.

Lemma in_tx_trans l1 l2 l3 : in_tx l1 l2 -> in_tx l2 l3 -> in_tx l1 l3.
Proof. intros [H1 H2] [H3 H4]. split; congruence. Qed.

Lemma in_tx_set_pending st l : in_tx l (set_pending st l).
Proof. split; reflexivity. Qed.

Lemma in_tx_print o l : in_tx l (print o l).
Proof. split; reflexivity. Qed.

Lemma in_tx_progress index l : in_tx l (progress index l).
Proof. unfold progress. case_match; [apply in_tx_print|apply in_tx_refl]. Qed.

Lemma in_tx_count_submission l : in_tx l (count_submission l).
Proof. split; reflexivity. Qed.

Lemma in_tx_count_score l : in_tx l (count_score l).
Proof. split; reflexivity. Qed.

Create HintDb tx.
#[local] Hint Resolve in_tx_refl in_tx_set_pending in_tx_print in_tx_progress
  in_tx_count_submission in_tx_count_score : tx.

Lemma in_tx_cursor_execute env q l : in_tx l (state (cursor_execute env q l)).
Proof. unfold cursor_execute. case_match; cbn; auto with tx. Qed.

Lemma in_tx_bind o k l :
  in_tx l (state o) -> (forall l1, in_tx l1 (state (k l1))) ->
  in_tx l (state (o >>> k)).
Proof.
  intros Ho Hk. destruct o as [l1|e l1]; cbn in *; [|exact Ho].
  eapply in_tx_trans; [exact Ho|apply Hk].
Qed.

Lemma in_tx_for_each {A} (body : A -> Loader -> outcome) xs :
  (forall x l, in_tx l (state (body x l))) ->
  forall l, in_tx l (state (for_each body xs l)).
Proof.
  intros Hbody. induction xs as [|x xs IH]; intros l; cbn [for_each].
  - apply in_tx_refl.
  - apply in_tx_bind; auto.
Qed.

Lemma in_tx_insert_score_of env inds row sid item l :
  in_tx l (state (insert_score_of env inds row sid item l)).
Proof.
  unfold insert_score_of. destruct item as [csv_col indicator_name].
  repeat case_match; cbn [state]; auto with tx.
  apply in_tx_bind; [apply in_tx_cursor_execute|intros; cbn; auto with tx].
Qed.

Lemma in_tx_insert_report_request_of env row sid l :
  in_tx l (state (insert_report_request_of env row sid l)).
Proof.
  unfold insert_report_request_of.
  repeat case_match; cbn [state]; auto using in_tx_cursor_execute with tx.
Qed.

Lemma in_tx_process_row env c ir l : in_tx l (state (process_row env c ir l)).
Proof.
  unfold process_row. destruct ir as [index row].
  pose proof (in_tx_progress index l) as Hp.
  destruct (parse_uuid env (row "id")) as [sid|]; [|exact Hp].
  destruct (parse_created_at env (row "created_at")) as [e|d]; [exact Hp|].
  pose proof (in_tx_cursor_execute env
    (InsertSubmission (submission_of c row sid d)) (progress index l)) as Hx.
  destruct (cursor_execute _ _ _) as [l1|e l1]; cbn [state] in Hx.
  - eapply in_tx_trans; [exact Hp|]. eapply in_tx_trans; [exact Hx|].
    apply in_tx_bind.
    + eapply in_tx_trans; [apply in_tx_count_submission|].
      apply in_tx_for_each. intros; apply in_tx_insert_score_of.
    + intros; apply in_tx_insert_report_request_of.
  - assert (in_tx l l1) by (eapply in_tx_trans; eauto).
    destruct e; assumption.
Qed.

(** A raising body ends the loop: the rows after it are not reached. *)
Lemma for_each_raised {A} (body : A -> Loader -> outcome) x xs l e l' :
  body x l = Raised e l' -> for_each body (x :: xs) l = Raised e l'.
Proof. intros H. cbn [for_each]. rewrite H. reflexivity. Qed.

Lemma for_each_next {A} (body : A -> Loader -> outcome) x xs l l' :
  body x l = Next l' -> for_each body (x :: xs) l = for_each body xs l'.
Proof. intros H. cbn [for_each]. rewrite H. reflexivity. Qed.

Lemma for_each_app {A} (body : A -> Loader -> outcome) xs ys l :
  for_each body (xs ++ ys) l = for_each body xs l >>> for_each body ys.
Proof.
  revert l. induction xs as [|x xs IH]; intros l; cbn [for_each app]; [reflexivity|].
  destruct (body x l); cbn [bind]; auto.
Qed.

(** The handler undoes the open transaction. *)
Lemma except_raised_rolls_back e l :
  pending (conn (except (Raised e l))) = durable (conn l)
  /\ durable (conn (except (Raised e l))) = durable (conn l)
  /\ last (stdout (except (Raised e l))) = Some (Error e).
Proof.
  cbn. repeat split. apply last_snoc.
Qed.

Lemma conn_progress index l : conn (progress index l) = conn l.
Proof. unfold progress. case_match; reflexivity. Qed.

Lemma counters_progress index l :
  submissions_loaded (progress index l) = submissions_loaded l
  /\ scores_loaded (progress index l) = scores_loaded l.
Proof. unfold progress. case_match; split; reflexivity. Qed.

Lemma stdout_progress index l :
  stdout (progress index l) = stdout l
  \/ stdout (progress index l) = (stdout l ++ [Processed index])%list.
Proof. unfold progress. case_match; [right|left]; reflexivity. Qed.

(** ** Rows that are skipped *)

(** C3: a row whose [id] does not parse as a UUID sends no statement: the
    body of the loop ends at once with the connection and both counters as
    they were, prints no error (at most the progress line), and the loop
    goes on with the next row. *)
Theorem invalid_uuid_row_is_skipped env c index row rest l :
  parse_uuid env (row "id") = None ->
  process_row env c (index, row) l = Next (progress index l)
  /\ conn (progress index l) = conn l
  /\ submissions_loaded (progress index l) = submissions_loaded l
  /\ scores_loaded (progress index l) = scores_loaded l
  /\ (forall e, In (Error e) (stdout (progress index l)) -> In (Error e) (stdout l))
  /\ for_each (process_row env c) ((index, row) :: rest) l
     = for_each (process_row env c) rest (progress index l).
Proof.
  intros Hid.
  assert (Hrow : process_row env c (index, row) l = Next (progress index l)).
  { unfold process_row. rewrite Hid. reflexivity. }
  split; [exact Hrow|]. split; [apply conn_progress|].
  split; [apply counters_progress|]. split; [apply counters_progress|].
  split; [|apply for_each_next, Hrow].
  intros e. destruct (stdout_progress index l) as [->| ->]; [auto|].
  rewrite in_app_iff. intros [H|[H|[]]]; [exact H|discriminate H].
Qed.

Lemma invalid_uuid_row_is_skipped_witness :
  parse_uuid Sample.env (Sample.row_bad_id "id") = None
  /\ process_row Sample.env Sample.caches0 (1%nat, Sample.row_bad_id)
       (Sample.loader0 Sample.db0)
     = Next (Sample.loader0 Sample.db0).
Proof.
  split; [reflexivity|].
  apply (invalid_uuid_row_is_skipped Sample.env Sample.caches0 1
           Sample.row_bad_id [] (Sample.loader0 Sample.db0)).
  reflexivity.
Defined.

(** C1, as amended: when the Submission insert of a row fails, the row is
    skipped (no score, no report request, the loop goes on) if and only if
    the failure is a [pyodbc.IntegrityError], whichever constraint was
    violated; every other failure leaves the loop, later rows are not
    reached, and the handler rolls the transaction back. *)
Theorem integrity_error_skips_row_other_failure_aborts
    env c index row rest l sid d e :
  parse_uuid env (row "id") = Some sid ->
  parse_created_at env (row "created_at") = inr d ->
  execute env (pending (conn l)) (InsertSubmission (submission_of c row sid d))
    = inl e ->
  (is_IntegrityError e = true ->
     process_row env c (index, row) l = Next (progress index l)
     /\ for_each (process_row env c) ((index, row) :: rest) l
        = for_each (process_row env c) rest (progress index l))
  /\ (is_IntegrityError e = false ->
     process_row env c (index, row) l = Raised e (progress index l)
     /\ for_each (process_row env c) ((index, row) :: rest) l
        = Raised e (progress index l)
     /\ pending (conn (except (Raised e (progress index l)))) = durable (conn l)
     /\ durable (conn (except (Raised e (progress index l)))) = durable (conn l)).
Proof.
  intros Hid Hts Hex.
  assert (Hcur : cursor_execute env (InsertSubmission (submission_of c row sid d))
                   (progress index l) = Raised e (progress index l)).
  { unfold cursor_execute. rewrite conn_progress, Hex. reflexivity. }
  split; intros He.
  - assert (Hrow : process_row env c (index, row) l = Next (progress index l)).
    { unfold process_row. rewrite Hid, Hts, Hcur. destruct e; done. }
    split; [exact Hrow|apply for_each_next, Hrow].
  - assert (Hrow : process_row env c (index, row) l = Raised e (progress index l)).
    { unfold process_row. rewrite Hid, Hts, Hcur. destruct e; done. }
    split; [exact Hrow|]. split; [apply for_each_raised, Hrow|].
    destruct (except_raised_rolls_back e (progress index l)) as (-> & -> & _).
    rewrite conn_progress. done.
Qed.

Lemma integrity_error_skips_row_other_failure_aborts_witness :
  parse_uuid Sample.strict_env (Sample.row_scenario "id") = Some Sample.sid_scenario
  /\ process_row Sample.strict_env Sample.caches0 (0%nat, Sample.row_scenario)
       (Sample.loader0 Sample.db0)
     = Next (progress 0 (Sample.loader0 Sample.db0)).
Proof.
  split; [reflexivity|].
  refine (proj1 (proj1 (integrity_error_skips_row_other_failure_aborts
           Sample.strict_env Sample.caches0 0 Sample.row_scenario []
           (Sample.loader0 Sample.db0) Sample.sid_scenario
           (mk_datetime 2024 1 15 10 0 0 0 None) (IntegrityError NotNull)
           _ _ _) _)); reflexivity.
Defined.

(** C1, as stated, fails: a row rejected for a NOT NULL column, not for a
    duplicate ID, is skipped like a duplicate.  The run commits, and the
    row after it is in the database. *)
Lemma other_constraint_violation_is_skipped :
  has_submission Sample.sid_scenario Sample.db0 = false
  /\ execute Sample.strict_env Sample.db0
       (InsertSubmission
          (submission_of Sample.caches0 Sample.row_scenario Sample.sid_scenario
             (mk_datetime 2024 1 15 10 0 0 0 None)))
     = inl (IntegrityError NotNull)
  /\ calls (load_survey_data Sample.strict_env
              [Sample.row_scenario; Sample.row_full] Sample.db0)
     = [CallCommit; CallClose]
  /\ submission_id <$>
       Submissions (durable (conn (load_survey_data Sample.strict_env
                      [Sample.row_scenario; Sample.row_full] Sample.db0)))
     = [Sample.sid_full].
Proof. repeat split; vm_compute; reflexivity. Qed.

(** ** Rows that are loaded *)

Lemma appended_refl st : appended st st [] [] [].
Proof. unfold appended. rewrite !app_nil_r. done. Qed.

Lemma appended_trans st1 st2 st3 a1 b1 c1 a2 b2 c2 :
  appended st1 st2 a1 b1 c1 -> appended st2 st3 a2 b2 c2 ->
  appended st1 st3 (a1 ++ a2) (b1 ++ b2) (c1 ++ c2).
Proof.
  intros (H1 & H2 & H3) (H4 & H5 & H6). unfold appended.
  rewrite H4, H5, H6, H1, H2, H3, <- !app_assoc. done.
Qed.

Lemma bind_Next o k l' :
  o >>> k = Next l' -> exists l1, o = Next l1 /\ k l1 = Next l'.
Proof. destruct o as [l1|e l1]; cbn; [eauto|discriminate]. Qed.

Lemma cursor_execute_Next env q l l' :
  cursor_execute env q l = Next l' ->
  exists st, execute env (pending (conn l)) q = inr st /\ l' = set_pending st l.
Proof.
  unfold cursor_execute. destruct (execute _ _ _) as [e|st]; [discriminate|].
  intros [= <-]. eauto.
Qed.

Lemma execute_insert_submission env st s st' :
  execute env st (InsertSubmission s) = inr st' ->
  st' = insert_submission s st /\ has_submission (submission_id s) st = false.
Proof.
  unfold execute. destruct (rejects _ _ _); [discriminate|].
  destruct (has_submission _ _); [discriminate|]. intros [= <-]. done.
Qed.

Lemma execute_insert_score env st r st' :
  execute env st (InsertSubmissionScore r) = inr st' -> st' = insert_score r st.
Proof.
  unfold execute. destruct (rejects _ _ _); [discriminate|]. congruence.
Qed.

Lemma execute_insert_report_request env st sid st' :
  execute env st (InsertReportRequest sid) = inr st' ->
  st' = insert_report_request (sid, "completed") st.
Proof.
  unfold execute. destruct (rejects _ _ _); [discriminate|]. congruence.
Qed.

(** One pass of the score loop appends the column's row, if it has one;
    a column with a value cannot pass without one. *)
Lemma insert_score_of_Next env inds row sid item l l' :
  insert_score_of env inds row sid item l = Next l' ->
  appended (pending (conn l)) (pending (conn l')) []
           (option_list (score_row env inds row sid item)) []
  /\ (notna (row item.1) = true -> is_Some (score_row env inds row sid item)).
Proof.
  unfold insert_score_of, score_row. destruct item as [csv_col name]. cbn [fst snd].
  destruct (notna (row csv_col)).
  - destruct (inds !! name) as [k|]; [|discriminate].
    destruct (int env (row csv_col)) as [e|v]; [discriminate|].
    intros (l1 & Hx & [= <-])%bind_Next.
    apply cursor_execute_Next in Hx as (st & Hx & ->).
    apply execute_insert_score in Hx as ->.
    split; [|eauto]. unfold appended. cbn. rewrite !app_nil_r. done.
  - intros [= <-]. split; [apply appended_refl|discriminate].
Qed.

Lemma for_each_scores env inds row sid items : forall l l',
  for_each (insert_score_of env inds row sid) items l = Next l' ->
  appended (pending (conn l)) (pending (conn l')) []
           (omap (score_row env inds row sid) items) []
  /\ Forall (fun item => notna (row item.1) = true ->
                         is_Some (score_row env inds row sid item)) items.
Proof.
  induction items as [|item items IH]; intros l l'; cbn [for_each].
  - intros [= <-]. split; [apply appended_refl|constructor].
  - intros (l1 & H1 & H2)%bind_Next.
    apply insert_score_of_Next in H1 as [Ha Hs]. apply IH in H2 as [Hb Hf].
    split; [|constructor; assumption].
    pose proof (appended_trans _ _ _ _ _ _ _ _ _ Ha Hb) as Hc.
    cbn [omap list_omap]. cbn [app] in Hc.
    destruct (score_row env inds row sid item); exact Hc.
Qed.

Lemma insert_report_request_of_Next env row sid l l' :
  insert_report_request_of env row sid l = Next l' ->
  appended (pending (conn l)) (pending (conn l')) [] []
           (if email_given (row "email") then [(sid, "completed")] else []).
Proof.
  unfold insert_report_request_of, email_given.
  destruct (row "email") as [|s|n|x]; cbn [notna]; try discriminate.
  - intros [= <-]. apply appended_refl.
  - rewrite truthy_strip. destruct (nonblank s).
    + intros (st & Hx & ->)%cursor_execute_Next.
      apply execute_insert_report_request in Hx as ->.
      unfold appended. cbn. rewrite !app_nil_r. done.
    + intros [= <-]. apply appended_refl.
Qed.

(** The whole of a row whose Submission insert went through. *)
Lemma process_row_loaded env c index row l sid d l1 l' :
  parse_uuid env (row "id") = Some sid ->
  parse_created_at env (row "created_at") = inr d ->
  cursor_execute env (InsertSubmission (submission_of c row sid d))
    (progress index l) = Next l1 ->
  process_row env c (index, row) l = Next l' ->
  appended (pending (conn l)) (pending (conn l'))
    [submission_of c row sid d]
    (omap (score_row env (indicators c) row sid) indicator_mapping)
    (if email_given (row "email") then [(sid, "completed")] else [])
  /\ Forall (fun item => notna (row item.1) = true ->
                         is_Some (score_row env (indicators c) row sid item))
            indicator_mapping.
Proof.
  intros Hid Hts Hins. unfold process_row. rewrite Hid, Hts, Hins.
  intros (l2 & Hsc & Hrr)%bind_Next.
  apply cursor_execute_Next in Hins as (st & Hx & ->).
  rewrite conn_progress in Hx.
  apply execute_insert_submission in Hx as [-> _].
  apply for_each_scores in Hsc as [Hsc Hall].
  apply insert_report_request_of_Next in Hrr.
  split; [|exact Hall].
  assert (H0 : appended (pending (conn l))
                 (insert_submission (submission_of c row sid d) (pending (conn l)))
                 [submission_of c row sid d] [] []).
  { unfold appended. cbn. rewrite !app_nil_r. done. }
  cbn in Hsc.
  pose proof (appended_trans _ _ _ _ _ _ _ _ _
                (appended_trans _ _ _ _ _ _ _ _ _ H0 Hsc) Hrr) as H.
  cbn [app] in H. rewrite !app_nil_r in H. exact H.
Qed.

Lemma email_given_strip c :
  email_given c = true <-> exists s, c = Str s /\ strip s <> "".
Proof.
  destruct c as [|s|n|x]; cbn [email_given];
    try (split; [discriminate|intros (s' & [=] & _)]).
  rewrite <- truthy_strip. split.
  - intros H. exists s. split; [reflexivity|]. intros Hs. rewrite Hs in H. discriminate.
  - intros (s' & [= <-] & Hs). destruct (strip s); [contradiction|reflexivity].
Qed.

(** C4: a row whose Submission insert went through and whose processing
    ran to its end adds exactly one ReportRequest, with status
    "completed", when its email is present and not blank after [strip];
    otherwise it adds none. *)
Theorem report_request_iff_email_given env c index row l sid d l1 l' :
  parse_uuid env (row "id") = Some sid ->
  parse_created_at env (row "created_at") = inr d ->
  cursor_execute env (InsertSubmission (submission_of c row sid d))
    (progress index l) = Next l1 ->
  process_row env c (index, row) l = Next l' ->
  (email_given (row "email") = true <->
     exists s, row "email" = Str s /\ strip s <> "")
  /\ (email_given (row "email") = true ->
       ReportRequests (pending (conn l'))
       = (ReportRequests (pending (conn l)) ++ [(sid, "completed")])%list)
  /\ (email_given (row "email") = false ->
       ReportRequests (pending (conn l')) = ReportRequests (pending (conn l))).
Proof.
  intros Hid Hts Hins Hrow.
  destruct (process_row_loaded _ _ _ _ _ _ _ _ _ Hid Hts Hins Hrow)
    as [(_ & _ & Hrr) _].
  split; [apply email_given_strip|].
  split; intros He; rewrite He in Hrr; [exact Hrr|].
  rewrite app_nil_r in Hrr. exact Hrr.
Qed.

Lemma report_request_iff_email_given_witness :
  email_given (Sample.row_scenario "email") = true
  /\ ReportRequests (pending (conn (state
        (process_row Sample.env Sample.caches0 (0%nat, Sample.row_scenario)
           (Sample.loader0 Sample.db0)))))
     = [(Sample.sid_scenario, "completed")].
Proof.
  split; [reflexivity|].
  refine (proj1 (proj2 (report_request_iff_email_given
           Sample.env Sample.caches0 0 Sample.row_scenario
           (Sample.loader0 Sample.db0) Sample.sid_scenario
           (mk_datetime 2024 1 15 10 0 0 0 None)
           (state (cursor_execute Sample.env
              (InsertSubmission (submission_of Sample.caches0 Sample.row_scenario
                 Sample.sid_scenario (mk_datetime 2024 1 15 10 0 0 0 None)))
              (progress 0 (Sample.loader0 Sample.db0))))
           _ _ _ _ _)) _); vm_compute; reflexivity.
Defined.

Lemma score_row_Some env inds row sid col name :
  notna (row col) = true ->
  is_Some (score_row env inds row sid (col, name)) ->
  exists k v, inds !! name = Some k /\ int env (row col) = inr v
              /\ score_row env inds row sid (col, name) = Some (sid, k, v).
Proof.
  unfold score_row. cbn [fst snd]. intros ->.
  destruct (inds !! name) as [k|]; [|intros [? [=]]].
  destruct (int env (row col)) as [e|v]; [intros [? [=]]|]. eauto.
Qed.

(** C5: a row whose Submission insert went through and whose processing
    ran to its end adds one score row for each indicator column that has
    a value, in the order of the mapping, and none for a column without
    one.  With all five columns filled these are exactly five rows, each
    with the surrogate key of the column's indicator label and the value
    cast by [int]. *)
Theorem score_rows_of_loaded_row env c index row l sid d l1 l' :
  parse_uuid env (row "id") = Some sid ->
  parse_created_at env (row "created_at") = inr d ->
  cursor_execute env (InsertSubmission (submission_of c row sid d))
    (progress index l) = Next l1 ->
  process_row env c (index, row) l = Next l' ->
  SubmissionScores (pending (conn l'))
  = (SubmissionScores (pending (conn l))
     ++ omap (score_row env (indicators c) row sid) indicator_mapping)%list
  /\ (forall item, notna (row item.1) = false ->
                   score_row env (indicators c) row sid item = None)
  /\ ((forall item, In item indicator_mapping -> notna (row item.1) = true) ->
      exists k1 k2 k3 k4 k5 v1 v2 v3 v4 v5,
        (indicators c !! "Economic Management" = Some k1
         /\ int env (row "economic_management_rate") = inr v1)
        /\ (indicators c !! "Immigration Policy" = Some k2
            /\ int env (row "immigration_policy_rate") = inr v2)
        /\ (indicators c !! "Foreign Policy" = Some k3
            /\ int env (row "foreign_policy_rate") = inr v3)
        /\ (indicators c !! "Domestic Policy" = Some k4
            /\ int env (row "domestic_policy_rate") = inr v4)
        /\ (indicators c !! "Social Policy" = Some k5
            /\ int env (row "social_policy_rate") = inr v5)
        /\ SubmissionScores (pending (conn l'))
           = (SubmissionScores (pending (conn l))
              ++ [(sid, k1, v1); (sid, k2, v2); (sid, k3, v3);
                  (sid, k4, v4); (sid, k5, v5)])%list).
Proof.
  intros Hid Hts Hins Hrow.
  destruct (process_row_loaded _ _ _ _ _ _ _ _ _ Hid Hts Hins Hrow)
    as [(_ & Hsc & _) Hall].
  split; [exact Hsc|]. split.
  { intros item Hna. unfold score_row. rewrite Hna. reflexivity. }
  intros Hfull. rewrite Hsc. unfold indicator_mapping in *.
  repeat (apply Forall_cons in Hall as [? Hall]).
  repeat match goal with
  | H : notna (row (?col, ?name).1) = true -> is_Some _ |- _ =>
      let k := fresh "k" in let v := fresh "v" in
      let Hk := fresh "Hk" in let Hv := fresh "Hv" in let Hr := fresh "Hr" in
      destruct (score_row_Some env (indicators c) row sid col name)
        as (k & v & Hk & Hv & Hr);
      [apply (Hfull (col, name)); cbn; tauto
      |apply H, (Hfull (col, name)); cbn; tauto
      |clear H]
  end.
  cbn [omap list_omap].
  repeat match goal with H : score_row _ _ _ _ _ = Some _ |- _ => rewrite H; clear H end.
  do 10 eexists. repeat (split; [split; eassumption|]). reflexivity.
Qed.

Lemma score_rows_of_loaded_row_witness :
  parse_uuid Sample.env (Sample.row_full "id") = Some Sample.sid_full
  /\ SubmissionScores (pending (conn (state
        (process_row Sample.env Sample.caches0 (0%nat, Sample.row_full)
           (Sample.loader0 Sample.db0)))))
     = omap (score_row Sample.env (indicators Sample.caches0) Sample.row_full
               Sample.sid_full) indicator_mapping.
Proof.
  split; [reflexivity|].
  refine (proj1 (score_rows_of_loaded_row
           Sample.env Sample.caches0 0 Sample.row_full
           (Sample.loader0 Sample.db0) Sample.sid_full
           (mk_datetime 2024 2 1 8 30 0 0 None)
           (state (cursor_execute Sample.env
              (InsertSubmission (submission_of Sample.caches0 Sample.row_full
                 Sample.sid_full (mk_datetime 2024 2 1 8 30 0 0 None)))
              (progress 0 (Sample.loader0 Sample.db0))))
           _ _ _ _ _)); vm_compute; reflexivity.
Defined.

Example row_full_scores :
  omap (score_row Sample.env (indicators Sample.caches0) Sample.row_full
          Sample.sid_full) indicator_mapping
  = [(Sample.sid_full, 1, 3); (Sample.sid_full, 2, 2); (Sample.sid_full, 3, 1);
     (Sample.sid_full, 4, 4); (Sample.sid_full, 5, 5)].
Proof. vm_compute. reflexivity. Qed.

(** ** Lookups *)

Lemma lookup_id_lenient (dict : gmap string Z) (c : cell) :
  notna c = false \/ dict_get dict c = None -> lookup_id dict c = None.
Proof. unfold lookup_id. intros [-> | H]; [reflexivity|]. destruct (notna c); auto. Qed.

(** C9: an age-range or region cell that is missing (as an absent or empty
    CSV field is read) or holds a label that is not in the lookup
    dictionary gives the Submission no reference, and nothing is raised
    for it; an indicator label that is not in its dictionary, met at a
    column with a value, raises [KeyError], which ends the loop and has
    the run rolled back. *)
Theorem lenient_lookups_strict_indicators env c index row rest l sid d :
  parse_uuid env (row "id") = Some sid ->
  parse_created_at env (row "created_at") = inr d ->
  (notna (row "age_range") = false \/ dict_get (age_ranges c) (row "age_range") = None ->
     age_range_id (submission_of c row sid d) = None)
  /\ (notna (row "region") = false \/ dict_get (regions c) (row "region") = None ->
     region_id (submission_of c row sid d) = None)
  /\ (forall l1 pre col name post l2,
       cursor_execute env (InsertSubmission (submission_of c row sid d))
         (progress index l) = Next l1 ->
       indicator_mapping = (pre ++ (col, name) :: post)%list ->
       for_each (insert_score_of env (indicators c) row sid) pre
         (count_submission l1) = Next l2 ->
       notna (row col) = true ->
       indicators c !! name = None ->
       process_row env c (index, row) l = Raised (KeyError name) l2
       /\ for_each (process_row env c) ((index, row) :: rest) l
          = Raised (KeyError name) l2
       /\ pending (conn (except (Raised (KeyError name) l2))) = durable (conn l)
       /\ durable (conn (except (Raised (KeyError name) l2))) = durable (conn l)).
Proof.
  intros Hid Hts. split; [apply lookup_id_lenient|]. split; [apply lookup_id_lenient|].
  intros l1 pre col name post l2 Hins Hmap Hpre Hna Hkey.
  assert (Hrow : process_row env c (index, row) l = Raised (KeyError name) l2).
  { unfold process_row. rewrite Hid, Hts, Hins, Hmap, for_each_app, Hpre.
    cbn [bind for_each]. unfold insert_score_of at 1. rewrite Hna, Hkey.
    reflexivity. }
  split; [exact Hrow|]. split; [apply for_each_raised, Hrow|].
  destruct (except_raised_rolls_back (KeyError name) l2) as (-> & -> & _).
  pose proof (in_tx_process_row env c (index, row) l) as [Hd _].
  rewrite Hrow in Hd. done.
Qed.

Lemma lenient_lookups_strict_indicators_witness :
  (parse_uuid Sample.env (Sample.row_full "id") = Some Sample.sid_full
   /\ dict_get (regions Sample.caches_short) (Sample.row_full "region") = None
   /\ indicators Sample.caches_short !! "Foreign Policy" = None)
  /\ region_id (submission_of Sample.caches_short Sample.row_full Sample.sid_full
                  (mk_datetime 2024 2 1 8 30 0 0 None)) = None
  /\ exists l2,
       process_row Sample.env Sample.caches_short (0%nat, Sample.row_full)
         (Sample.loader0 Sample.db_short)
       = Raised (KeyError "Foreign Policy") l2.
Proof.
  pose proof (lenient_lookups_strict_indicators
           Sample.env Sample.caches_short 0 Sample.row_full []
           (Sample.loader0 Sample.db_short) Sample.sid_full
           (mk_datetime 2024 2 1 8 30 0 0 None) eq_refl eq_refl)
    as (_ & Hregion & Hind).
  split; [repeat split; vm_compute; reflexivity|].
  split; [apply Hregion; right; vm_compute; reflexivity|].
  eexists.
  refine (proj1 (Hind _
            [("economic_management_rate", "Economic Management");
             ("immigration_policy_rate", "Immigration Policy")]
            "foreign_policy_rate" "Foreign Policy"
            [("domestic_policy_rate", "Domestic Policy");
             ("social_policy_rate", "Social Policy")]
            _ _ _ _ _ _)); [| | |reflexivity|vm_compute; reflexivity].
  - vm_compute. reflexivity.
  - reflexivity.
  - vm_compute. reflexivity.
Defined.

Example unmapped_indicator_aborts :
  last (stdout (load_survey_data Sample.env
                  [Sample.row_scenario; Sample.row_full] Sample.db_short))
  = Some (Error (KeyError "Foreign Policy"))
  /\ durable (conn (load_survey_data Sample.env
                      [Sample.row_scenario; Sample.row_full] Sample.db_short))
     = Sample.db_short.
Proof. split; vm_compute; reflexivity. Qed.

(** ** The creation timestamp *)






(** ** The run as one transaction *)

(** The scenario row alone: one Submission with a naive timestamp and no
    references, one score, one report request. *)
Example scenario_row_loads :
  durable (conn (load_survey_data Sample.env [Sample.row_scenario] Sample.db0))
  = mk_store
      [mk_submission Sample.sid_scenario (mk_datetime 2024 1 15 10 0 0 0 None)
         None None (Some (Float (42 # 100))) None None (Some (Str "a@b.com"))]
      [(Sample.sid_scenario, 1, 3)]
      [(Sample.sid_scenario, "completed")]
      (AgeRanges Sample.db0) (Regions Sample.db0) (Indicators Sample.db0).
Proof. vm_compute. reflexivity. Qed.

(** The same row twice: the second is skipped as a duplicate. *)
Example duplicate_row_is_skipped :
  durable (conn (load_survey_data Sample.env
                   [Sample.row_scenario; Sample.row_scenario] Sample.db0))
  = durable (conn (load_survey_data Sample.env [Sample.row_scenario] Sample.db0))
  /\ calls (load_survey_data Sample.env
              [Sample.row_scenario; Sample.row_scenario] Sample.db0)
     = [CallCommit; CallClose].
Proof. split; vm_compute; reflexivity. Qed.

Lemma load_dict_inr env q name l dict l' :
  load_dict env q name l = inr (dict, l') ->
  conn l' = conn l /\ calls l' = calls l
  /\ exists rows, fetchall env (pending (conn l)) q = inr rows
                  /\ dict = dict_of_rows rows.
Proof.
  unfold load_dict. destruct (fetchall _ _ _) as [e|rows]; [discriminate|].
  intros [= <- <-]. eauto.
Qed.

Lemma fetchall_inr env st q rows :
  fetchall env st q = inr rows ->
  match q with
  | SelectAgeRanges => rows = AgeRanges st
  | SelectRegions => rows = Regions st
  | SelectIndicators => rows = Indicators st
  | _ => True
  end.
Proof.
  unfold fetchall. destruct (rejects _ _ _); [discriminate|].
  destruct q; try done; congruence.
Qed.


Lemma commit_Raised env l e l1 :
  commit env l = Raised e l1 ->
  durable (conn l1) = durable (conn l) /\ calls l1 = (calls l ++ [CallCommit])%list.
Proof.
  unfold commit. cbn. destruct (rejects _ _ _); [|discriminate].
  intros [= _ <-]. done.
Qed.

(** The two ways the [try] block ends: every row was processed, with the
    dictionaries of the lookup tables, and the commit went through; or an
    exception left it with nothing committed. *)
Lemma try_block_ends env df l0 :
  (exists la l lc,
     (conn la = conn l0 /\ calls la = calls l0)
     /\ for_each (process_row env (caches_of (pending (conn l0)))) (iterrows df) la
        = Next l
     /\ commit env l = Next lc
     /\ exists l1, try_block env df l0 = Next l1
        /\ conn l1 = conn lc /\ calls l1 = calls lc)
  \/ (exists e l1,
       try_block env df l0 = Raised e l1
       /\ durable (conn l1) = durable (conn l0)
       /\ (calls l1 = calls l0 \/ calls l1 = (calls l0 ++ [CallCommit])%list)).
Proof.
  unfold try_block.
  set (la0 := print (Line "3. Loading lookup tables...") l0).
  destruct (load_dict env SelectAgeRanges "Age ranges" la0) as [e|[ar l1]] eqn:E1.
  { right. exists e, la0. auto. }
  apply load_dict_inr in E1 as (Hc1 & Hk1 & rows1 & Hf1 & ->).
  apply fetchall_inr in Hf1 as ->.
  destruct (load_dict env SelectRegions "Regions" l1) as [e|[rg l2]] eqn:E2.
  { right. exists e, l1. rewrite Hc1, Hk1. auto. }
  apply load_dict_inr in E2 as (Hc2 & Hk2 & rows2 & Hf2 & ->).
  apply fetchall_inr in Hf2 as ->. rewrite Hc1 in Hc2. rewrite Hk1 in Hk2.
  destruct (load_dict env SelectIndicators "Indicators" l2) as [e|[ind l3]] eqn:E3.
  { right. exists e, l2. rewrite Hc2, Hk2. auto. }
  apply load_dict_inr in E3 as (Hc3 & Hk3 & rows3 & Hf3 & ->).
  apply fetchall_inr in Hf3 as ->. rewrite Hc2 in Hc3. rewrite Hk2 in Hk3.
  rewrite Hc1, Hc2. cbn [la0 print conn].
  fold (caches_of (pending (conn l0))).
  set (c := caches_of (pending (conn l0))).
  set (la := print (Line "4. Processing submissions...") l3).
  assert (Ha : conn la = conn l0 /\ calls la = calls l0) by (split; assumption).
  pose proof (in_tx_for_each (process_row env c) (iterrows df)
                (in_tx_process_row env c) la) as Hloop.
  destruct (for_each (process_row env c) (iterrows df) la) as [l|e l] eqn:Eloop;
    cbn [state bind] in *.
  - destruct (commit env l) as [lc|e lc] eqn:Ec; cbn [bind].
    + left. exists la, l, lc. repeat (split; [assumption|]).
      eexists. split; [reflexivity|]. split; reflexivity.
    + right. exists e, lc. split; [reflexivity|].
      apply commit_Raised in Ec as [Hd Hc]. destruct Hloop as [Hd' Hc'].
      destruct Ha as [Ha1 Ha2]. rewrite Ha1 in Hd'. rewrite Ha2 in Hc'.
      split; [congruence|]. right. congruence.
  - right. exists e, l. split; [reflexivity|].
    destruct Hloop as [Hd' Hc']. destruct Ha as [Ha1 Ha2].
    rewrite Ha1 in Hd'. rewrite Ha2 in Hc'. auto.
Qed.


(** ** What a run adds *)

Lemma grow_nil st : grow st [] [] [] = st.
Proof. destruct st. unfold grow. cbn. rewrite !app_nil_r. reflexivity. Qed.

Lemma grow_grow st a b c a' b' c' :
  grow (grow st a b c) a' b' c' = grow st (a ++ a') (b ++ b') (c ++ c').
Proof. unfold grow. cbn. rewrite <- !app_assoc. reflexivity. Qed.

Lemma effect_refl l : effect l l [] [] [].
Proof. unfold effect. rewrite grow_nil. cbn. split; [reflexivity|lia]. Qed.

Lemma effect_trans l1 l2 l3 a b c a' b' c' :
  effect l1 l2 a b c -> effect l2 l3 a' b' c' ->
  effect l1 l3 (a ++ a') (b ++ b') (c ++ c').
Proof.
  intros (H1 & H2 & H3) (H4 & H5 & H6). unfold effect.
  rewrite H4, H1, grow_grow, H5, H2, H6, H3, !length_app.
  split; [reflexivity|lia].
Qed.

Lemma effect_progress index l : effect l (progress index l) [] [] [].
Proof.
  unfold effect. rewrite conn_progress, grow_nil.
  destruct (counters_progress index l) as [-> ->]. cbn. split; [reflexivity|lia].
Qed.

Lemma has_submission_grow sid st subs scores reqs :
  has_submission sid (grow st subs scores reqs)
  = has_submission sid st
    || existsb (fun s => Z.eqb (submission_id s) sid) subs.
Proof. unfold has_submission, grow. cbn. apply existsb_app. Qed.

Lemma cursor_execute_Raised env q l e l' :
  cursor_execute env q l = Raised e l' ->
  execute env (pending (conn l)) q = inl e /\ l' = l.
Proof.
  unfold cursor_execute. destruct (execute _ _ _) as [e0|st]; [|discriminate].
  intros [= <- <-]. done.
Qed.

Lemma insert_score_of_effect env inds row sid item l l' :
  insert_score_of env inds row sid item l = Next l' ->
  effect l l' [] (option_list (score_row env inds row sid item)) [].
Proof.
  unfold insert_score_of, score_row. destruct item as [csv_col name]. cbn [fst snd].
  destruct (notna (row csv_col)).
  - destruct (inds !! name) as [k|]; [|discriminate].
    destruct (int env (row csv_col)) as [e|v]; [discriminate|].
    intros (l1 & Hx & [= <-])%bind_Next.
    apply cursor_execute_Next in Hx as (st & Hx & ->).
    apply execute_insert_score in Hx as ->.
    unfold effect, grow, insert_score. cbn. rewrite !app_nil_r.
    split; [reflexivity|lia].
  - intros [= <-]. apply effect_refl.
Qed.

Lemma for_each_scores_effect env inds row sid items : forall l l',
  for_each (insert_score_of env inds row sid) items l = Next l' ->
  effect l l' [] (omap (score_row env inds row sid) items) [].
Proof.
  induction items as [|item items IH]; intros l l'; cbn [for_each].
  - intros [= <-]. apply effect_refl.
  - intros (l1 & H1 & H2)%bind_Next.
    apply insert_score_of_effect in H1. apply IH in H2.
    pose proof (effect_trans _ _ _ _ _ _ _ _ _ H1 H2) as H.
    cbn [omap list_omap]. cbn [app] in H.
    destruct (score_row env inds row sid item); exact H.
Qed.

Lemma insert_report_request_of_effect env row sid l l' :
  insert_report_request_of env row sid l = Next l' ->
  effect l l' [] []
         (if email_given (row "email") then [(sid, "completed")] else []).
Proof.
  unfold insert_report_request_of, email_given.
  destruct (row "email") as [|s|n|x]; cbn [notna]; try discriminate.
  - intros [= <-]. apply effect_refl.
  - rewrite truthy_strip. destruct (nonblank s).
    + intros (st & Hx & ->)%cursor_execute_Next.
      apply execute_insert_report_request in Hx as ->.
      unfold effect, grow, insert_report_request. cbn. rewrite !app_nil_r.
      split; [reflexivity|lia].
    + intros [= <-]. apply effect_refl.
Qed.

(** The two ways the body of the loop ends normally: the row was skipped
    and added nothing, or its ID was new and its rows were added. *)
Lemma process_row_effect env c index row l l' :
  process_row env c (index, row) l = Next l' ->
  effect l l' [] [] []
  \/ exists sid d,
       parse_uuid env (row "id") = Some sid
       /\ parse_created_at env (row "created_at") = inr d
       /\ has_submission sid (pending (conn l)) = false
       /\ effect l l' [submission_of c row sid d]
            (omap (score_row env (indicators c) row sid) indicator_mapping)
            (if email_given (row "email") then [(sid, "completed")] else []).
Proof.
  unfold process_row.
  destruct (parse_uuid env (row "id")) as [sid|] eqn:Hid.
  2:{ intros [= <-]. left. apply effect_progress. }
  destruct (parse_created_at env (row "created_at")) as [e|d] eqn:Hts; [discriminate|].
  destruct (cursor_execute env (InsertSubmission (submission_of c row sid d))
              (progress index l)) as [l1|e l1] eqn:Hins.
  - intros (l2 & Hsc & Hrr)%bind_Next. right. exists sid, d.
    apply cursor_execute_Next in Hins as (st & Hx & ->).
    rewrite conn_progress in Hx.
    apply execute_insert_submission in Hx as [-> Hnew].
    apply for_each_scores_effect in Hsc. apply insert_report_request_of_effect in Hrr.
    repeat (split; [done|]).
    assert (H0 : effect l (count_submission (set_pending
                   (insert_submission (submission_of c row sid d) (pending (conn l)))
                   (progress index l)))
                   [submission_of c row sid d] [] []).
    { unfold effect, grow, insert_submission. cbn. rewrite !app_nil_r.
      destruct (counters_progress index l) as [-> ->]. cbn. split; [reflexivity|lia]. }
    pose proof (effect_trans _ _ _ _ _ _ _ _ _
                  (effect_trans _ _ _ _ _ _ _ _ _ H0 Hsc) Hrr) as H.
    cbn [app] in H. rewrite !app_nil_r in H. exact H.
  - apply cursor_execute_Raised in Hins as [_ ->].
    destruct e; try discriminate. intros [= <-]. left. apply effect_progress.
Qed.

Lemma score_rows_sid env inds row sid items :
  Forall (fun r : SubmissionScore => r.1.1 = sid)
         (omap (score_row env inds row sid) items).
Proof.
  apply Forall_forall. intros r (item & _ & Hr)%list_elem_of_omap.
  unfold score_row in Hr. repeat case_match; try discriminate.
  injection Hr as <-. reflexivity.
Qed.

Lemma score_rows_length env inds row sid items :
  (length (omap (score_row env inds row sid) items) <= length items)%nat.
Proof.
  induction items as [|item items IH]; cbn [omap list_omap]; [done|].
  destruct (score_row env inds row sid item); cbn [length]; lia.
Qed.

(** What the loop adds is consistent with the store it started from. *)
Lemma loop_effect env c irs : forall l l',
  for_each (process_row env c) irs l = Next l' ->
  exists subs scores reqs,
    effect l l' subs scores reqs
    /\ consistent (pending (conn l)) subs scores reqs
    /\ (length subs <= length irs)%nat.
Proof.
  induction irs as [|[index row] irs IH]; intros l l'; cbn [for_each].
  - intros [= <-]. exists [], [], []. split; [apply effect_refl|].
    split; [|done]. unfold consistent. cbn.
    repeat split; try constructor; try lia.
  - intros (l1 & Hrow & Hrest)%bind_Next.
    apply IH in Hrest as (subs & scores & reqs & Heff & Hcons & Hlen).
    apply process_row_effect in Hrow as [Hskip|(sid & d & Hid & Hts & Hnew & Hrow)].
    + exists subs, scores, reqs.
      pose proof (effect_trans _ _ _ _ _ _ _ _ _ Hskip Heff) as H.
      split; [exact H|]. destruct Hskip as [Hp _]. rewrite Hp, grow_nil in Hcons.
      split; [exact Hcons|]. cbn [length]. lia.
    + set (sub := submission_of c row sid d) in *.
      set (sc := omap (score_row env (indicators c) row sid) indicator_mapping) in *.
      set (rq := if email_given (row "email") then [(sid, "completed")] else []) in *.
      exists (sub :: subs), (sc ++ scores)%list, (rq ++ reqs)%list.
      pose proof (effect_trans _ _ _ _ _ _ _ _ _ Hrow Heff) as H.
      split; [exact H|]. split; [|cbn [length]; lia].
      destruct Hrow as [Hp _]. rewrite Hp in Hcons.
      destruct Hcons as (Hnd & Hfresh & Hsc & Hst & Hsub & Hsz).
      assert (Hsid : forall s, s ∈ subs -> submission_id s <> sid).
      { intros s Hs Heq. rewrite Forall_forall in Hfresh.
        specialize (Hfresh s Hs). rewrite Heq, has_submission_grow in Hfresh.
        apply orb_false_iff in Hfresh as [_ Hf]. cbn in Hf.
        rewrite Z.eqb_refl in Hf. discriminate. }
      unfold consistent. cbn [fmap list_fmap].
      change (submission_id sub) with sid.
      split.
      { apply NoDup_cons. split; [|exact Hnd].
        intros (s & Heq & Hs)%list_elem_of_fmap. apply (Hsid s Hs). congruence. }
      split.
      { constructor; [exact Hnew|]. eapply Forall_impl; [exact Hfresh|].
        intros s Hs. cbn beta in Hs. rewrite has_submission_grow in Hs.
        apply orb_false_iff in Hs as [Hs _]. exact Hs. }
      split.
      { apply Forall_app. split.
        - eapply Forall_impl; [apply score_rows_sid|].
          intros r ->. apply elem_of_cons. left. reflexivity.
        - eapply Forall_impl; [exact Hsc|]. intros r Hr. apply elem_of_cons. right. exact Hr. }
      split.
      { apply Forall_app. split; [|exact Hst].
        subst rq. destruct (email_given (row "email")); repeat constructor. }
      split.
      { rewrite fmap_app. apply (sublist_app _ [sid]); [|exact Hsub].
        subst rq. destruct (email_given (row "email")); cbn; [done|apply sublist_nil_l]. }
      rewrite length_app. pose proof (score_rows_length env (indicators c) row sid
                                        indicator_mapping) as Hle.
      fold sc in Hle. cbn [length indicator_mapping] in *. lia.
Qed.

Lemma load_dict_print env q name l dict l' :
  load_dict env q name l = inr (dict, l') -> l' = print (ShowDict name dict) l.
Proof.
  unfold load_dict. destruct (fetchall _ _ _) as [e|rows]; [discriminate|].
  intros [= <- <-]. reflexivity.
Qed.

Lemma commit_Next_state env l lc :
  commit env l = Next lc ->
  lc = set_conn (conn_commit (conn l)) (call CallCommit l).
Proof.
  unfold commit. cbn. destruct (rejects _ _ _); [discriminate|].
  intros [= <-]. reflexivity.
Qed.

(** The [try] block when it ends normally, in full. *)
Lemma try_block_Next env df l0 l1 :
  try_block env df l0 = Next l1 ->
  exists la l,
    conn la = conn l0
    /\ submissions_loaded la = submissions_loaded l0
    /\ scores_loaded la = scores_loaded l0
    /\ calls la = calls l0
    /\ for_each (process_row env (caches_of (pending (conn l0)))) (iterrows df) la
       = Next l
    /\ rejects env (pending (conn l)) Commit = None
    /\ l1 = print (ScoresLoaded (scores_loaded l))
              (print (SubmissionsLoaded (submissions_loaded l))
                 (print (Line "5. Data loading completed!")
                    (set_conn (conn_commit (conn l)) (call CallCommit l)))).
Proof.
  unfold try_block.
  set (la0 := print (Line "3. Loading lookup tables...") l0).
  destruct (load_dict env SelectAgeRanges "Age ranges" la0) as [e|[ar l1']] eqn:E1;
    [discriminate|].
  pose proof (load_dict_print _ _ _ _ _ _ E1) as ->.
  apply load_dict_inr in E1 as (_ & _ & rows1 & Hf1 & ->).
  apply fetchall_inr in Hf1 as ->.
  destruct (load_dict env SelectRegions "Regions" _) as [e|[rg l2]] eqn:E2;
    [discriminate|].
  pose proof (load_dict_print _ _ _ _ _ _ E2) as ->.
  apply load_dict_inr in E2 as (_ & _ & rows2 & Hf2 & ->).
  apply fetchall_inr in Hf2 as ->.
  destruct (load_dict env SelectIndicators "Indicators" _) as [e|[ind l3]] eqn:E3;
    [discriminate|].
  pose proof (load_dict_print _ _ _ _ _ _ E3) as ->.
  apply load_dict_inr in E3 as (_ & _ & rows3 & Hf3 & ->).
  apply fetchall_inr in Hf3 as ->.
  cbn [la0 print conn].
  fold (caches_of (pending (conn l0))).
  intros (lc & (l & Hloop & Hcommit)%bind_Next & [= <-])%bind_Next.
  eexists _, l. split; [|split; [|split; [|split; [|split; [exact Hloop|]]]]];
    try reflexivity.
  pose proof (commit_Next_state _ _ _ Hcommit) as ->.
  unfold commit in Hcommit. cbn in Hcommit.
  destruct (rejects env (pending (conn l)) Commit); [discriminate|].
  split; reflexivity.
Qed.

Lemma length_iterrows df : length (iterrows df) = length df.
Proof. unfold iterrows. apply length_imap. Qed.

(** A run that commits: what it added, and what it printed last. *)
Lemma run_committed env df db l1 :
  try_block env df (connect df db) = Next l1 ->
  exists subs scores reqs out,
    durable (conn (load_survey_data env df db)) = grow db subs scores reqs
    /\ consistent db subs scores reqs
    /\ (length subs <= length df)%nat
    /\ calls (load_survey_data env df db) = [CallCommit; CallClose]
    /\ stdout (load_survey_data env df db)
       = (out ++ [Line "5. Data loading completed!";
                  SubmissionsLoaded (length subs);
                  ScoresLoaded (length scores)])%list.
Proof.
  intros Htry. unfold load_survey_data. rewrite Htry.
  apply try_block_Next in Htry as (la & l & Hconn & Hsub & Hsc & Hla & Hloop & _ & ->).
  pose proof (in_tx_for_each (process_row env (caches_of db)) (iterrows df)
                (in_tx_process_row env (caches_of db)) la) as [_ Hcalls].
  cbn [connect conn pending] in Hloop. rewrite Hloop in Hcalls. cbn [state] in Hcalls.
  apply loop_effect in Hloop as (subs & scores & reqs & (Hp & Hn & Hm) & Hcons & Hlen).
  rewrite Hconn in Hp, Hcons. cbn [connect conn pending] in Hp, Hcons.
  rewrite Hsub in Hn. rewrite Hsc in Hm. rewrite Hla in Hcalls.
  cbn [connect submissions_loaded scores_loaded calls] in Hn, Hm, Hcalls.
  rewrite length_iterrows in Hlen.
  exists subs, scores, reqs, (stdout l).
  cbn. rewrite Hp, Hn, Hm, Hcalls. cbn. rewrite <- !app_assoc. done.
Qed.

(** Whatever way a run ends, the database it leaves is the one it found
    with consistent rows added: none at all when it was rolled back. *)
Lemma run_effect env df db :
  exists subs scores reqs,
    durable (conn (load_survey_data env df db)) = grow db subs scores reqs
    /\ consistent db subs scores reqs
    /\ (length subs <= length df)%nat.
Proof.
  destruct (try_block env df (connect df db)) as [l1|e l1] eqn:Htry.
  - apply run_committed in Htry as (subs & scores & reqs & out & H1 & H2 & H3 & _).
    eauto 10.
  - exists [], [], []. rewrite grow_nil.
    destruct (try_block_ends env df (connect df db))
      as [(la & l & lc & _ & _ & _ & l1' & Hn & _)|(e' & l1' & Hr & Hd & _)];
      [congruence|].
    unfold load_survey_data. rewrite Hr. cbn. split; [exact Hd|].
    split; [|lia]. unfold consistent. cbn. repeat split; try constructor; lia.
Qed.

Lemma has_submission_ids sid st : has_submission sid st = true <-> sid ∈ ids st.
Proof.
  unfold has_submission, ids. rewrite existsb_exists, list_elem_of_fmap.
  split.
  - intros (s & Hs & <-%Z.eqb_eq). exists s. split; [reflexivity|apply list_elem_of_In, Hs].
  - intros (s & -> & Hs). exists s. split; [apply list_elem_of_In, Hs|apply Z.eqb_refl].
Qed.

(** X1: the loader only appends.  Whatever the environment does, the three
    data tables of the database a run leaves start with the rows they had,
    the report requests it added are all "completed", and the three lookup
    tables are as they were. *)
Theorem loader_only_appends env df db :
  Submissions db `prefix_of` Submissions (durable (conn (load_survey_data env df db)))
  /\ SubmissionScores db
     `prefix_of` SubmissionScores (durable (conn (load_survey_data env df db)))
  /\ (exists reqs,
        ReportRequests (durable (conn (load_survey_data env df db)))
        = (ReportRequests db ++ reqs)%list
        /\ Forall (fun r : ReportRequest => r.2 = "completed") reqs)
  /\ AgeRanges (durable (conn (load_survey_data env df db))) = AgeRanges db
  /\ Regions (durable (conn (load_survey_data env df db))) = Regions db
  /\ Indicators (durable (conn (load_survey_data env df db))) = Indicators db.
Proof.
  destruct (run_effect env df db)
    as (subs & scores & reqs & -> & (_ & _ & _ & Hst & _) & _).
  cbn. split; [by exists subs|]. split; [by exists scores|].
  split; [by exists reqs|]. done.
Qed.

(** X2: referential integrity is kept.  If every score and every report
    request of the database belongs to one of its submissions, the same
    holds of the database a run leaves. *)
Theorem loader_keeps_rows_referenced env df db :
  referenced db -> referenced (durable (conn (load_survey_data env df db))).
Proof.
  intros [Hsc Hrq].
  destruct (run_effect env df db)
    as (subs & scores & reqs & -> & (_ & _ & Hnew & _ & Hsub & _) & _).
  unfold referenced, ids, grow. cbn. rewrite fmap_app. split.
  - apply Forall_app. split.
    + eapply Forall_impl; [exact Hsc|]. intros r Hr. apply elem_of_app. left. exact Hr.
    + eapply Forall_impl; [exact Hnew|]. intros r Hr. apply elem_of_app. right. exact Hr.
  - apply Forall_app. split.
    + eapply Forall_impl; [exact Hrq|]. intros r Hr. apply elem_of_app. left. exact Hr.
    + apply Forall_forall. intros r Hr. apply elem_of_app. right.
      apply (sublist_subseteq _ _ Hsub). apply list_elem_of_fmap_2, Hr.
Qed.

Lemma loader_keeps_rows_referenced_witness :
  referenced Sample.db_loaded
  /\ referenced (durable (conn (load_survey_data Sample.env
                   [Sample.row_full; Sample.row_scenario] Sample.db_loaded))).
Proof.
  assert (H : referenced Sample.db_loaded).
  { split; repeat constructor. }
  split; [exact H|].
  apply (loader_keeps_rows_referenced Sample.env
           [Sample.row_full; Sample.row_scenario] Sample.db_loaded H).
Defined.


(** ** Running the loader again *)

Lemma effect_keeps_submission l l' subs scores reqs sid :
  effect l l' subs scores reqs ->
  has_submission sid (pending (conn l)) = true ->
  has_submission sid (pending (conn l')) = true.
Proof.
  intros [-> _] H. rewrite has_submission_grow, H. reflexivity.
Qed.

(** With a server that rejects nothing but duplicates, a row the body of
    the loop got past has its ID in the store, and a timestamp that
    parses. *)
Lemma process_row_id_present env c index row l l' sid :
  (forall st q, rejects env st q = None) ->
  parse_uuid env (row "id") = Some sid ->
  process_row env c (index, row) l = Next l' ->
  has_submission sid (pending (conn l')) = true
  /\ exists d, parse_created_at env (row "created_at") = inr d.
Proof.
  intros Hrel Hid Hrow.
  pose proof Hrow as Heff. apply process_row_effect in Heff.
  unfold process_row in Hrow. rewrite Hid in Hrow.
  destruct (parse_created_at env (row "created_at")) as [e|d]; [discriminate|].
  split; [|eauto].
  destruct Heff as [Hskip|(sid' & d' & Hid' & _ & _ & [-> _])].
  - destruct (cursor_execute env (InsertSubmission (submission_of c row sid d))
                (progress index l)) as [l1|e l1] eqn:Hins.
    + apply cursor_execute_Next in Hins as (st & Hx & ->).
      apply bind_Next in Hrow as (l2 & Hsc & Hrr).
      apply for_each_scores_effect in Hsc.
      apply insert_report_request_of_effect in Hrr.
      apply (effect_keeps_submission _ _ _ _ _ _ Hrr).
      apply (effect_keeps_submission _ _ _ _ _ _ Hsc).
      apply execute_insert_submission in Hx as [-> _].
      unfold has_submission, insert_submission. cbn.
      rewrite existsb_app. cbn. rewrite Z.eqb_refl. apply orb_true_r.
    + apply cursor_execute_Raised in Hins as [Hx ->].
      destruct Hskip as [-> _]. rewrite grow_nil.
      unfold execute in Hx. rewrite Hrel, conn_progress in Hx. cbn in Hx.
      destruct (has_submission sid (pending (conn l))); [reflexivity|discriminate].
  - assert (sid' = sid) as -> by congruence.
    rewrite has_submission_grow. cbn. rewrite Z.eqb_refl. cbn. apply orb_true_r.
Qed.

Lemma loop_ids_present env c irs :
  (forall st q, rejects env st q = None) ->
  forall l l',
    for_each (process_row env c) irs l = Next l' ->
    forall index row sid,
      In (index, row) irs ->
      parse_uuid env (row "id") = Some sid ->
      has_submission sid (pending (conn l')) = true
      /\ exists d, parse_created_at env (row "created_at") = inr d.
Proof.
  intros Hrel. induction irs as [|[i r] irs IH]; intros l l' Hloop index row sid Hin Hid;
    [destruct Hin|].
  cbn [for_each] in Hloop. apply bind_Next in Hloop as (l1 & Hrow & Hrest).
  destruct Hin as [[= <- <-]|Hin]; [|eauto].
  destruct (process_row_id_present _ _ _ _ _ _ _ Hrel Hid Hrow) as [Hhas Hts].
  split; [|exact Hts].
  apply loop_effect in Hrest as (subs & scores & reqs & Heff & _).
  exact (effect_keeps_submission _ _ _ _ _ _ Heff Hhas).
Qed.

(** When every ID of the data frame is in the store already, the loop
    leaves the connection as it is. *)
Lemma loop_all_skipped env c irs :
  (forall st q, rejects env st q = None) ->
  forall l,
    (forall index row sid,
       In (index, row) irs ->
       parse_uuid env (row "id") = Some sid ->
       has_submission sid (pending (conn l)) = true
       /\ exists d, parse_created_at env (row "created_at") = inr d) ->
    exists l', for_each (process_row env c) irs l = Next l' /\ conn l' = conn l.
Proof.
  intros Hrel. induction irs as [|[i r] irs IH]; intros l Hall; cbn [for_each].
  - eauto.
  - assert (Hrow : process_row env c (i, r) l = Next (progress i l)).
    { unfold process_row. destruct (parse_uuid env (r "id")) as [sid|] eqn:Hid; [|done].
      destruct (Hall i r sid (or_introl eq_refl) Hid) as [Hhas [d ->]].
      unfold cursor_execute, execute. rewrite Hrel, conn_progress. cbn. rewrite Hhas.
      reflexivity. }
    rewrite Hrow. cbn [bind].
    destruct (IH (progress i l)) as (l' & Hl' & Hc).
    { intros index row sid Hin Hid. rewrite conn_progress. apply (Hall index row sid); auto.
      right. exact Hin. }
    exists l'. split; [exact Hl'|]. rewrite Hc. apply conn_progress.
Qed.

(** With such a server the [try] block reaches the loop, and ends normally
    when the loop does. *)
Lemma try_block_reliable env df l0 :
  (forall st q, rejects env st q = None) ->
  exists la,
    conn la = conn l0
    /\ forall l,
         for_each (process_row env (caches_of (pending (conn l0)))) (iterrows df) la
         = Next l ->
         exists l1, try_block env df l0 = Next l1
                    /\ durable (conn l1) = pending (conn l).
Proof.
  intros Hrel. unfold try_block, load_dict, fetchall. rewrite !Hrel. cbn [print conn].
  fold (caches_of (pending (conn l0))).
  eexists. split; [|intros l ->; cbn [bind]; unfold commit; cbn; rewrite Hrel; eauto].
  reflexivity.
Qed.

Lemma run_rolled_back env df db e l1 :
  try_block env df (connect df db) = Raised e l1 ->
  durable (conn (load_survey_data env df db)) = db.
Proof.
  intros Htry.
  destruct (try_block_ends env df (connect df db))
    as [(la & l & lc & _ & _ & _ & l1' & Hn & _)|(e' & l1' & Hr & Hd & _)];
    [congruence|].
  unfold load_survey_data. rewrite Hr. cbn. exact Hd.
Qed.

(** X6: loading the same data frame again changes nothing.  With a server
    that rejects a statement only for a duplicate submission ID, a second
    run over the database the first run left leaves that database as it
    is. *)
Theorem rerun_changes_nothing env df db :
  (forall st q, rejects env st q = None) ->
  durable (conn (load_survey_data env df
                   (durable (conn (load_survey_data env df db)))))
  = durable (conn (load_survey_data env df db)).
Proof.
  intros Hrel.
  destruct (try_block env df (connect df db)) as [l1|e l1] eqn:Htry.
  2:{ rewrite (run_rolled_back _ _ _ _ _ Htry). apply (run_rolled_back _ _ _ _ _ Htry). }
  assert (Hfirst : exists l,
            durable (conn (load_survey_data env df db)) = pending (conn l)
            /\ forall index row sid,
                 In (index, row) (iterrows df) ->
                 parse_uuid env (row "id") = Some sid ->
                 has_submission sid (pending (conn l)) = true
                 /\ exists d, parse_created_at env (row "created_at") = inr d).
  { unfold load_survey_data. rewrite Htry.
    apply try_block_Next in Htry as (la & l & _ & _ & _ & _ & Hloop & _ & ->).
    exists l. split; [reflexivity|]. exact (loop_ids_present _ _ _ Hrel _ _ Hloop). }
  destruct Hfirst as (l & Hdb & Hall). rewrite Hdb.
  destruct (try_block_reliable env df (connect df (pending (conn l))) Hrel)
    as (la & Hla & Hend).
  destruct (loop_all_skipped env (caches_of (pending (conn l))) (iterrows df) Hrel la)
    as (l' & Hloop & Hconn).
  { rewrite Hla. exact Hall. }
  destruct (Hend l' Hloop) as (l1' & Htry' & Hd).
  unfold load_survey_data. rewrite Htry'. cbn. rewrite Hd, Hconn, Hla. reflexivity.
Qed.

Lemma rerun_changes_nothing_witness :
  (forall st q, rejects Sample.env st q = None)
  /\ durable (conn (load_survey_data Sample.env [Sample.row_full; Sample.row_scenario]
       (durable (conn (load_survey_data Sample.env
                         [Sample.row_full; Sample.row_scenario] Sample.db0)))))
     = durable (conn (load_survey_data Sample.env
                        [Sample.row_full; Sample.row_scenario] Sample.db0)).
Proof.
  assert (H : forall st q, rejects Sample.env st q = None) by (intros; reflexivity).
  split; [exact H|].
  apply (rerun_changes_nothing Sample.env [Sample.row_full; Sample.row_scenario]
           Sample.db0 H).
Defined.

(** ** The lookup dictionaries *)

Lemma dict_of_rows_snoc rows r :
  dict_of_rows (rows ++ [r]) = <[r.2 := r.1]> (dict_of_rows rows).
Proof. unfold dict_of_rows. rewrite foldl_snoc. reflexivity. Qed.

Lemma dict_of_rows_last rows : forall pre id label post,
  rows = (pre ++ (id, label) :: post)%list ->
  label ∉ post.*2 ->
  dict_of_rows rows !! label = Some id.
Proof.
  intros pre id label post. revert rows.
  induction post as [|r post IH] using rev_ind; intros rows -> Hpost.
  - rewrite dict_of_rows_snoc. apply lookup_insert_eq.
  - rewrite fmap_app in Hpost. apply not_elem_of_app in Hpost as [Hpost Hr].
    rewrite app_comm_cons, app_assoc, dict_of_rows_snoc.
    rewrite lookup_insert_ne.
    + apply (IH _ eq_refl Hpost).
    + intros Heq. apply Hr. cbn. rewrite Heq. apply list_elem_of_singleton. reflexivity.
Qed.

(** X7: the three dictionaries mirror their tables.  A label is a key
    exactly when a row of the table has it, the key it maps to is the key
    of such a row, of the last one when several rows share the label, and
    so of the only one when labels are unique. *)
Theorem lookup_dict_mirrors_table (rows : list (Z * string)) :
  (forall label id, dict_of_rows rows !! label = Some id -> (id, label) ∈ rows)
  /\ (forall label, label ∈ rows.*2 <-> is_Some (dict_of_rows rows !! label))
  /\ (forall pre id label post,
        rows = (pre ++ (id, label) :: post)%list -> label ∉ post.*2 ->
        dict_of_rows rows !! label = Some id)
  /\ (NoDup rows.*2 ->
      forall id label, (id, label) ∈ rows -> dict_of_rows rows !! label = Some id).
Proof.
  assert (H1 : forall label id,
             dict_of_rows rows !! label = Some id -> (id, label) ∈ rows).
  { induction rows as [|[id' label'] rows IH] using rev_ind; intros label id.
    - unfold dict_of_rows. cbn. rewrite lookup_empty. discriminate.
    - rewrite dict_of_rows_snoc. cbn [fst snd]. rewrite lookup_insert.
      case_decide as Hl; intros H; apply elem_of_app.
      + right. apply list_elem_of_singleton. congruence.
      + left. auto. }
  split; [exact H1|]. split; [|split; [apply dict_of_rows_last|]].
  - intros label. split.
    + intros ([id label'] & -> & Hin)%list_elem_of_fmap.
      apply list_elem_of_split in Hin as (pre & post & ->).
      clear H1. revert pre. induction post as [|r post IH] using rev_ind; intros pre.
      * rewrite dict_of_rows_snoc, lookup_insert_eq. eauto.
      * rewrite app_comm_cons, app_assoc, dict_of_rows_snoc, lookup_insert.
        case_decide; [eauto|apply IH].
    + intros [id Hid]. apply H1 in Hid. apply list_elem_of_fmap. exists (id, label). done.
  - intros Hnd id label (pre & post & ->)%list_elem_of_split.
    apply (dict_of_rows_last _ pre id label post eq_refl).
    rewrite fmap_app, fmap_cons in Hnd. apply NoDup_app in Hnd as (_ & _ & Hnd).
    apply NoDup_cons in Hnd as [Hnd _]. exact Hnd.
Qed.

(** ** More ways for a row to end *)

(** X8: a duplicate adds nothing.  A row whose ID is already in
    [Submissions] leaves the state as the progress line left it, however
    its processing ends; when its timestamp parses and the server has no
    other objection to the insert, the row is skipped and the loop goes
    on. *)
Theorem duplicate_id_row_adds_nothing env c index row rest l sid :
  parse_uuid env (row "id") = Some sid ->
  has_submission sid (pending (conn l)) = true ->
  state (process_row env c (index, row) l) = progress index l
  /\ (forall d,
        parse_created_at env (row "created_at") = inr d ->
        rejects env (pending (conn l)) (InsertSubmission (submission_of c row sid d))
          = None ->
        process_row env c (index, row) l = Next (progress index l)
        /\ for_each (process_row env c) ((index, row) :: rest) l
           = for_each (process_row env c) rest (progress index l)).
Proof.
  intros Hid Hhas.
  assert (Hx : forall d,
            exists e, cursor_execute env (InsertSubmission (submission_of c row sid d))
                        (progress index l) = Raised e (progress index l)
                      /\ (rejects env (pending (conn l))
                            (InsertSubmission (submission_of c row sid d)) = None ->
                          e = IntegrityError PrimaryKey)).
  { intros d. unfold cursor_execute, execute. rewrite conn_progress.
    destruct (rejects env _ _) as [e|]; [exists e; split; [reflexivity|discriminate]|].
    cbn. rewrite Hhas. eauto. }
  split.
  - unfold process_row. rewrite Hid.
    destruct (parse_created_at env (row "created_at")) as [e|d]; [reflexivity|].
    destruct (Hx d) as (e & -> & _). destruct e; reflexivity.
  - intros d Hts Hrej.
    assert (Hrow : process_row env c (index, row) l = Next (progress index l)).
    { unfold process_row. rewrite Hid, Hts.
      destruct (Hx d) as (e & -> & He). rewrite (He Hrej). reflexivity. }
    split; [exact Hrow|apply for_each_next, Hrow].
Qed.

Lemma duplicate_id_row_adds_nothing_witness :
  (parse_uuid Sample.env (Sample.row_scenario "id") = Some Sample.sid_scenario
   /\ has_submission Sample.sid_scenario Sample.db_loaded = true)
  /\ state (process_row Sample.env Sample.caches0 (3%nat, Sample.row_scenario)
             (Sample.loader0 Sample.db_loaded))
     = Sample.loader0 Sample.db_loaded.
Proof.
  split; [split; reflexivity|].
  refine (proj1 (duplicate_id_row_adds_nothing Sample.env Sample.caches0 3
           Sample.row_scenario [] (Sample.loader0 Sample.db_loaded)
           Sample.sid_scenario _ _)); reflexivity.
Defined.

(** X9: a timestamp that cannot be parsed ends the run.  For a row whose
    ID parses, a [created_at] that is not a string raises
    [AttributeError] and one that is not in ISO format raises
    [ValueError], before anything is sent for the row; the rows after it
    are not reached, and the handler rolls back what the rows before it
    added. *)
Theorem unparsable_timestamp_aborts env c index row rest l sid :
  parse_uuid env (row "id") = Some sid ->
  (match row "created_at" with
   | Str s => fromisoformat env (replace "+00:00" "" s) = None
   | _ => True
   end) ->
  exists e,
    e = (match row "created_at" with Str _ => ValueError | _ => AttributeError end)
    /\ process_row env c (index, row) l = Raised e (progress index l)
    /\ for_each (process_row env c) ((index, row) :: rest) l
       = Raised e (progress index l)
    /\ pending (conn (except (Raised e (progress index l)))) = durable (conn l)
    /\ durable (conn (except (Raised e (progress index l)))) = durable (conn l).
Proof.
  intros Hid Hts. eexists. split; [reflexivity|].
  assert (Hrow : process_row env c (index, row) l
                 = Raised (match row "created_at" with
                           | Str _ => ValueError | _ => AttributeError end)
                          (progress index l)).
  { unfold process_row, parse_created_at. rewrite Hid.
    destruct (row "created_at"); try reflexivity. rewrite Hts. reflexivity. }
  split; [exact Hrow|]. split; [apply for_each_raised, Hrow|].
  cbn. rewrite conn_progress. done.
Qed.

Lemma unparsable_timestamp_aborts_witness :
  (parse_uuid Sample.env (Sample.row_no_timestamp "id")
   = Some 0xaaaaaaaabbbbccccddddeeeeeeeeeeee
   /\ Sample.row_no_timestamp "created_at" = NaN)
  /\ exists e,
       e = AttributeError
       /\ process_row Sample.env Sample.caches0 (1%nat, Sample.row_no_timestamp)
            (Sample.loader0 Sample.db_loaded)
          = Raised e (Sample.loader0 Sample.db_loaded).
Proof.
  split; [split; reflexivity|].
  destruct (unparsable_timestamp_aborts Sample.env Sample.caches0 1
              Sample.row_no_timestamp [] (Sample.loader0 Sample.db_loaded)
              0xaaaaaaaabbbbccccddddeeeeeeeeeeee eq_refl I)
    as (e & He & Hrow & _).
  exists e. split; [exact He|exact Hrow].
Defined.

Example bad_timestamp_is_a_value_error :
  last (stdout (load_survey_data Sample.env
                  [Sample.row_scenario; Sample.row_bad_timestamp] Sample.db0))
  = Some (Error ValueError)
  /\ durable (conn (load_survey_data Sample.env
                      [Sample.row_scenario; Sample.row_bad_timestamp] Sample.db0))
     = Sample.db0.
Proof. split; vm_compute; reflexivity. Qed.

(** X10: only the Submission insert is guarded.  Once a row's Submission
    is in, a score insert or the report-request insert that the server
    rejects raises whatever the server raised, an integrity error
    included; the rows after it are not reached, and the handler rolls
    back the row's Submission with the rest of the run. *)
Theorem failure_after_submission_insert_aborts env c index row rest l sid d l1 :
  parse_uuid env (row "id") = Some sid ->
  parse_created_at env (row "created_at") = inr d ->
  cursor_execute env (InsertSubmission (submission_of c row sid d))
    (progress index l) = Next l1 ->
  (forall pre col name post l2 k v e,
     indicator_mapping = (pre ++ (col, name) :: post)%list ->
     for_each (insert_score_of env (indicators c) row sid) pre
       (count_submission l1) = Next l2 ->
     score_row env (indicators c) row sid (col, name) = Some (sid, k, v) ->
     execute env (pending (conn l2)) (InsertSubmissionScore (sid, k, v)) = inl e ->
     process_row env c (index, row) l = Raised e l2
     /\ for_each (process_row env c) ((index, row) :: rest) l = Raised e l2
     /\ pending (conn (except (Raised e l2))) = durable (conn l))
  /\ (forall l2 e,
        for_each (insert_score_of env (indicators c) row sid) indicator_mapping
          (count_submission l1) = Next l2 ->
        email_given (row "email") = true ->
        execute env (pending (conn l2)) (InsertReportRequest sid) = inl e ->
        process_row env c (index, row) l = Raised e l2
        /\ for_each (process_row env c) ((index, row) :: rest) l = Raised e l2
        /\ pending (conn (except (Raised e l2))) = durable (conn l)).
Proof.
  intros Hid Hts Hins.
  assert (Hback : forall e l2,
            process_row env c (index, row) l = Raised e l2 ->
            process_row env c (index, row) l = Raised e l2
            /\ for_each (process_row env c) ((index, row) :: rest) l = Raised e l2
            /\ pending (conn (except (Raised e l2))) = durable (conn l)).
  { intros e l2 Hrow. split; [exact Hrow|]. split; [apply for_each_raised, Hrow|].
    pose proof (in_tx_process_row env c (index, row) l) as [Hd _].
    rewrite Hrow in Hd. cbn. exact Hd. }
  split.
  - intros pre col name post l2 k v e Hmap Hpre Hrow Hx. apply Hback.
    unfold process_row. rewrite Hid, Hts, Hins, Hmap, for_each_app, Hpre.
    cbn [bind for_each]. unfold insert_score_of at 1.
    unfold score_row in Hrow. cbn [fst snd] in Hrow.
    destruct (notna (row col)); [|discriminate].
    destruct (indicators c !! name) as [k'|]; [|discriminate].
    destruct (int env (row col)) as [e'|v']; [discriminate|].
    injection Hrow as <- <-.
    unfold cursor_execute. rewrite Hx. reflexivity.
  - intros l2 e Hsc Hmail Hx. apply Hback.
    unfold process_row. rewrite Hid, Hts, Hins, Hsc. cbn [bind].
    unfold insert_report_request_of. unfold email_given in Hmail.
    destruct (row "email") as [|s|n|x]; try discriminate. cbn [notna].
    rewrite truthy_strip, Hmail. unfold cursor_execute. rewrite Hx. reflexivity.
Qed.

Lemma failure_after_submission_insert_aborts_witness :
  (parse_uuid Sample.fk_env (Sample.row_scenario "id") = Some Sample.sid_scenario
   /\ email_given (Sample.row_scenario "email") = true)
  /\ exists l2,
       process_row Sample.fk_env Sample.caches0 (0%nat, Sample.row_scenario)
         (Sample.loader0 Sample.db0)
       = Raised (IntegrityError ForeignKey) l2.
Proof.
  split; [split; reflexivity|].
  pose proof (failure_after_submission_insert_aborts
           Sample.fk_env Sample.caches0 0 Sample.row_scenario []
           (Sample.loader0 Sample.db0) Sample.sid_scenario
           (mk_datetime 2024 1 15 10 0 0 0 None)
           (state (cursor_execute Sample.fk_env
              (InsertSubmission (submission_of Sample.caches0 Sample.row_scenario
                 Sample.sid_scenario (mk_datetime 2024 1 15 10 0 0 0 None)))
              (progress 0 (Sample.loader0 Sample.db0))))
           eq_refl eq_refl) as H.
  destruct H as [_ H]; [vm_compute; reflexivity|].
  eexists.
  refine (proj1 (H _ (IntegrityError ForeignKey) _ _ _)).
  - vm_compute. reflexivity.
  - reflexivity.
  - vm_compute. reflexivity.
Defined.

(** ** Where the rows of a run come from *)

(** X11: a label of the table resolves to its key.  With the dictionaries
    of a database whose age-range (region) labels are unique, a row whose
    age-range (region) cell is the label of a row of the table gives its
    Submission that row's key. *)
Theorem table_label_resolves_to_its_key db row sid d :
  (forall id label,
     NoDup (AgeRanges db).*2 -> (id, label) ∈ AgeRanges db ->
     row "age_range" = Str label ->
     age_range_id (submission_of (caches_of db) row sid d) = Some id)
  /\ (forall id label,
        NoDup (Regions db).*2 -> (id, label) ∈ Regions db ->
        row "region" = Str label ->
        region_id (submission_of (caches_of db) row sid d) = Some id).
Proof.
  split; intros id label Hnd (pre & post & Hrows)%list_elem_of_split Hcell;
    cbn; unfold lookup_id; rewrite Hcell; cbn;
    apply (dict_of_rows_last _ pre id label post Hrows);
    rewrite Hrows, fmap_app, fmap_cons in Hnd;
    apply NoDup_app in Hnd as (_ & _ & Hnd);
    apply NoDup_cons in Hnd as [Hnd _]; exact Hnd.
Qed.

Example row_full_age_range :
  age_range_id (submission_of (caches_of Sample.db0) Sample.row_full
                  Sample.sid_full (mk_datetime 2024 2 1 8 30 0 0 None))
  = Some 2.
Proof. vm_compute. reflexivity. Qed.

Lemma loop_sources env c irs : forall l l',
  for_each (process_row env c) irs l = Next l' ->
  forall s, s ∈ Submissions (pending (conn l')) ->
    s ∈ Submissions (pending (conn l))
    \/ exists index row d,
         In (index, row) irs
         /\ parse_uuid env (row "id") = Some (submission_id s)
         /\ parse_created_at env (row "created_at") = inr d
         /\ s = submission_of c row (submission_id s) d.
Proof.
  induction irs as [|[i r] irs IH]; intros l l'; cbn [for_each].
  - intros [= <-] s Hs. left. exact Hs.
  - intros (l1 & Hrow & Hrest)%bind_Next s Hs.
    destruct (IH _ _ Hrest s Hs) as [Hs1|(index & row & d & Hin & H)].
    2:{ right. exists index, row, d. split; [right; exact Hin|exact H]. }
    apply process_row_effect in Hrow as [[Hp _]|(sid & d & Hid & Hts & _ & [Hp _])];
      rewrite Hp in Hs1; cbn in Hs1.
    + rewrite app_nil_r in Hs1. left. exact Hs1.
    + apply elem_of_app in Hs1 as [Hs1|Hs1%list_elem_of_singleton]; [left; exact Hs1|].
      right. exists i, r, d. subst s. cbn. split; [left; reflexivity|done].
Qed.

Lemma In_iterrows df index row : In (index, row) (iterrows df) -> In row df.
Proof.
  intros Hin%list_elem_of_In. unfold iterrows in Hin.
  apply elem_of_lookup_imap in Hin as (i & x & [= -> ->] & Hx).
  apply list_elem_of_In, list_elem_of_lookup. eauto.
Qed.

Lemma iterrows_In df row : In row df -> exists index, In (index, row) (iterrows df).
Proof.
  intros Hin%list_elem_of_In. apply list_elem_of_lookup in Hin as [i Hi].
  exists i. apply list_elem_of_In. unfold iterrows.
  apply (elem_of_lookup_imap_2 pair df row i Hi).
Qed.

(** X12: the loader invents no submission.  A submission of the database
    a run leaves either was there before or was built from a row of the
    data frame whose ID and timestamp parse, with the dictionaries of the
    database's lookup tables. *)
Theorem added_submissions_come_from_rows env df db s :
  s ∈ Submissions (durable (conn (load_survey_data env df db))) ->
  s ∈ Submissions db
  \/ exists row d,
       In row df
       /\ parse_uuid env (row "id") = Some (submission_id s)
       /\ parse_created_at env (row "created_at") = inr d
       /\ s = submission_of (caches_of db) row (submission_id s) d.
Proof.
  destruct (try_block env df (connect df db)) as [l1|e l1] eqn:Htry.
  - unfold load_survey_data. rewrite Htry.
    apply try_block_Next in Htry as (la & l & Hconn & _ & _ & _ & Hloop & _ & ->).
    cbn. intros Hs. cbn [connect conn pending] in Hloop.
    destruct (loop_sources _ _ _ _ _ Hloop s Hs) as [Hold|(index & row & d & Hin & H)].
    + left. rewrite Hconn in Hold. exact Hold.
    + right. exists row, d. split; [exact (In_iterrows _ _ _ Hin)|exact H].
  - rewrite (run_rolled_back _ _ _ _ _ Htry). auto.
Qed.

Lemma added_submissions_come_from_rows_witness :
  submission_of (caches_of Sample.db_loaded) Sample.row_full Sample.sid_full
    (mk_datetime 2024 2 1 8 30 0 0 None)
  ∈ Submissions (durable (conn (load_survey_data Sample.env
                    [Sample.row_bad_id; Sample.row_full] Sample.db_loaded)))
  /\ exists row d,
       In row [Sample.row_bad_id; Sample.row_full]
       /\ parse_uuid Sample.env (row "id") = Some Sample.sid_full
       /\ parse_created_at Sample.env (row "created_at") = inr d.
Proof.
  assert (H : submission_of (caches_of Sample.db_loaded) Sample.row_full Sample.sid_full
                (mk_datetime 2024 2 1 8 30 0 0 None)
              ∈ Submissions (durable (conn (load_survey_data Sample.env
                    [Sample.row_bad_id; Sample.row_full] Sample.db_loaded)))).
  { vm_compute. apply list_elem_of_further, list_elem_of_here. }
  split; [exact H|].
  destruct (added_submissions_come_from_rows Sample.env
              [Sample.row_bad_id; Sample.row_full] Sample.db_loaded _ H)
    as [Hold|(row & d & Hin & Hid & Hts & _)].
  - exfalso. vm_compute in Hold.
    apply list_elem_of_singleton in Hold. discriminate Hold.
  - exists row, d. auto.
Defined.

(** X13: a committed run loses no row.  With a server that rejects a
    statement only for a duplicate submission ID, after a run that
    commits the ID of every row of the data frame whose ID parses is in
    [Submissions]. *)
Theorem committed_run_has_every_valid_row env df db :
  (forall st q, rejects env st q = None) ->
  calls (load_survey_data env df db) = [CallCommit; CallClose] ->
  forall row sid,
    In row df -> parse_uuid env (row "id") = Some sid ->
    sid ∈ ids (durable (conn (load_survey_data env df db))).
Proof.
  intros Hrel Hcalls row sid Hin Hid.
  destruct (try_block env df (connect df db)) as [l1|e l1] eqn:Htry.
  - unfold load_survey_data. rewrite Htry.
    apply try_block_Next in Htry as (la & l & _ & _ & _ & _ & Hloop & _ & ->).
    cbn. apply has_submission_ids.
    destruct (iterrows_In _ _ Hin) as [index Hir].
    exact (proj1 (loop_ids_present _ _ _ Hrel _ _ Hloop index row sid Hir Hid)).
  - destruct (try_block_ends env df (connect df db))
      as [(la & l & lc & _ & _ & _ & l1' & Hn & _)|(e' & l1' & Hr & _ & Hc)];
      [congruence|].
    unfold load_survey_data in Hcalls. rewrite Hr in Hcalls. cbn in Hcalls.
    destruct Hc as [Hc|Hc]; rewrite Hc in Hcalls; discriminate.
Qed.

Lemma committed_run_has_every_valid_row_witness :
  ((forall st q, rejects Sample.env st q = None)
   /\ calls (load_survey_data Sample.env [Sample.row_bad_id; Sample.row_full]
               Sample.db_loaded) = [CallCommit; CallClose])
  /\ Sample.sid_full
     ∈ ids (durable (conn (load_survey_data Sample.env
                             [Sample.row_bad_id; Sample.row_full] Sample.db_loaded))).
Proof.
  assert (H1 : forall st q, rejects Sample.env st q = None) by (intros; reflexivity).
  assert (H2 : calls (load_survey_data Sample.env [Sample.row_bad_id; Sample.row_full]
                        Sample.db_loaded) = [CallCommit; CallClose])
    by (vm_compute; reflexivity).
  split; [split; assumption|].
  apply (committed_run_has_every_valid_row Sample.env
           [Sample.row_bad_id; Sample.row_full] Sample.db_loaded H1 H2
           Sample.row_full Sample.sid_full); [right; left|]; reflexivity.
Defined.

(** ** What a run prints *)

Lemma stdout_cursor_execute env q l :
  stdout (state (cursor_execute env q l)) = stdout l.
Proof. unfold cursor_execute. destruct (execute _ _ _); reflexivity. Qed.

Lemma stdout_bind o k l :
  stdout (state o) = stdout l ->
  (forall l1, stdout (state (k l1)) = stdout l1) ->
  stdout (state (o >>> k)) = stdout l.
Proof.
  intros Ho Hk. destruct o as [l1|e l1]; cbn in *; [|exact Ho].
  rewrite Hk. exact Ho.
Qed.

Lemma stdout_for_each {A} (body : A -> Loader -> outcome) xs :
  (forall x l, stdout (state (body x l)) = stdout l) ->
  forall l, stdout (state (for_each body xs l)) = stdout l.
Proof.
  intros Hbody. induction xs as [|x xs IH]; intros l; cbn [for_each]; [reflexivity|].
  apply stdout_bind; auto.
Qed.

Lemma stdout_insert_score_of env inds row sid item l :
  stdout (state (insert_score_of env inds row sid item l)) = stdout l.
Proof.
  unfold insert_score_of. destruct item as [csv_col name].
  repeat case_match; try reflexivity.
  apply stdout_bind; [apply stdout_cursor_execute|reflexivity].
Qed.

Lemma stdout_insert_report_request_of env row sid l :
  stdout (state (insert_report_request_of env row sid l)) = stdout l.
Proof.
  unfold insert_report_request_of.
  repeat case_match; try reflexivity. apply stdout_cursor_execute.
Qed.

(** The body of the loop prints its progress line and nothing else. *)
Lemma stdout_process_row env c index row l :
  stdout (state (process_row env c (index, row) l)) = stdout (progress index l).
Proof.
  unfold process_row.
  destruct (parse_uuid env (row "id")) as [sid|]; [|reflexivity].
  destruct (parse_created_at env (row "created_at")) as [e|d]; [reflexivity|].
  pose proof (stdout_cursor_execute env
    (InsertSubmission (submission_of c row sid d)) (progress index l)) as Hx.
  destruct (cursor_execute _ _ _) as [l1|e l1]; cbn [state] in Hx.
  - rewrite <- Hx. apply stdout_bind.
    + rewrite (stdout_for_each _ _ (stdout_insert_score_of env (indicators c) row sid)).
      reflexivity.
    + apply stdout_insert_report_request_of.
  - destruct e; exact Hx.
Qed.

Lemma omap_filter {A B} (p : A -> bool) (f : A -> B) (xs : list A) :
  omap (fun x => if p x then Some (f x) else None) xs = f <$> List.filter p xs.
Proof.
  induction xs as [|x xs IH]; [reflexivity|]. cbn.
  destruct (p x); cbn; rewrite IH; reflexivity.
Qed.

Lemma stdout_loop env c irs : forall l l',
  for_each (process_row env c) irs l = Next l' ->
  stdout l'
  = (stdout l
     ++ (Processed <$> List.filter (fun index => (index mod 50 =? 0)%nat) irs.*1))%list.
Proof.
  induction irs as [|[index row] irs IH]; intros l l'; cbn [for_each].
  - intros [= <-]. cbn. rewrite app_nil_r. reflexivity.
  - intros (l1 & Hrow & Hrest)%bind_Next.
    pose proof (stdout_process_row env c index row l) as Hout.
    rewrite Hrow in Hout. cbn [state] in Hout.
    rewrite (IH _ _ Hrest), Hout. cbn [fmap list_fmap fst List.filter]. unfold progress.
    destruct (index mod 50 =? 0)%nat; cbn; [rewrite <- app_assoc|]; reflexivity.
Qed.

Lemma iterrows_indexes df : (iterrows df).*1 = seq 0 (length df).
Proof.
  unfold iterrows. rewrite fmap_imap.
  rewrite (imap_ext _ (fun j _ => j)) by done.
  rewrite (imap_seq_0 df (fun j => j)). apply list_fmap_id.
Qed.

Lemma try_block_Next_start env df l0 l1 :
  try_block env df l0 = Next l1 ->
  exists l,
    for_each (process_row env (caches_of (pending (conn l0)))) (iterrows df)
      (loop_start l0) = Next l
    /\ l1 = print (ScoresLoaded (scores_loaded l))
              (print (SubmissionsLoaded (submissions_loaded l))
                 (print (Line "5. Data loading completed!")
                    (set_conn (conn_commit (conn l)) (call CallCommit l)))).
Proof.
  unfold try_block.
  set (la0 := print (Line "3. Loading lookup tables...") l0).
  destruct (load_dict env SelectAgeRanges "Age ranges" la0) as [e|[ar l1']] eqn:E1;
    [discriminate|].
  pose proof (load_dict_print _ _ _ _ _ _ E1) as ->.
  apply load_dict_inr in E1 as (_ & _ & rows1 & Hf1 & ->).
  apply fetchall_inr in Hf1 as ->.
  destruct (load_dict env SelectRegions "Regions" _) as [e|[rg l2]] eqn:E2;
    [discriminate|].
  pose proof (load_dict_print _ _ _ _ _ _ E2) as ->.
  apply load_dict_inr in E2 as (_ & _ & rows2 & Hf2 & ->).
  apply fetchall_inr in Hf2 as ->.
  destruct (load_dict env SelectIndicators "Indicators" _) as [e|[ind l3]] eqn:E3;
    [discriminate|].
  pose proof (load_dict_print _ _ _ _ _ _ E3) as ->.
  apply load_dict_inr in E3 as (_ & _ & rows3 & Hf3 & ->).
  apply fetchall_inr in Hf3 as ->.
  cbn [la0 print conn].
  fold (caches_of (pending (conn l0))).
  intros (lc & (l & Hloop & Hcommit)%bind_Next & [= <-])%bind_Next.
  exists l. split; [exact Hloop|].
  pose proof (commit_Next_state _ _ _ Hcommit) as ->. reflexivity.
Qed.

(** X5: what a committed run prints.  The three opening lines with the
    number of records, the three dictionaries as built from the lookup
    tables, one progress line for every fiftieth row, and last the
    completion message with the two counters, which are the numbers of
    rows the run added to [Submissions] and to [SubmissionScores]. *)
Theorem committed_run_output env df db :
  calls (load_survey_data env df db) = [CallCommit; CallClose] ->
  exists n m,
    stdout (load_survey_data env df db)
    = ([Line "1. Reading CSV file..."; Found (length df);
        Line "2. Connecting to database...";
        Line "3. Loading lookup tables...";
        ShowDict "Age ranges" (dict_of_rows (AgeRanges db));
        ShowDict "Regions" (dict_of_rows (Regions db));
        ShowDict "Indicators" (dict_of_rows (Indicators db));
        Line "4. Processing submissions..."]
       ++ progress_lines (length df)
       ++ [Line "5. Data loading completed!";
           SubmissionsLoaded n; ScoresLoaded m])%list
    /\ length (Submissions (durable (conn (load_survey_data env df db))))
       = (length (Submissions db) + n)%nat
    /\ length (SubmissionScores (durable (conn (load_survey_data env df db))))
       = (length (SubmissionScores db) + m)%nat.
Proof.
  intros Hcalls.
  destruct (try_block env df (connect df db)) as [l1|e l1] eqn:Htry.
  - unfold load_survey_data. rewrite Htry.
    apply try_block_Next_start in Htry as (l & Hloop & ->).
    pose proof (stdout_loop _ _ _ _ _ Hloop) as Hout.
    rewrite iterrows_indexes in Hout. fold (progress_lines (length df)) in Hout.
    apply loop_effect in Hloop as (subs & scores & reqs & (Hp & Hn & Hm) & _).
    exists (length subs), (length scores).
    cbn. rewrite Hout, Hp, Hn, Hm. cbn. rewrite !length_app, <- !app_assoc. done.
  - destruct (try_block_ends env df (connect df db))
      as [(la & l & lc & _ & _ & _ & l1' & Hn & _)|(e' & l1' & Hr & _ & Hc)];
      [congruence|].
    unfold load_survey_data in Hcalls. rewrite Hr in Hcalls. cbn in Hcalls.
    destruct Hc as [Hc|Hc]; rewrite Hc in Hcalls; discriminate.
Qed.

Lemma committed_run_output_witness :
  calls (load_survey_data Sample.env [Sample.row_full; Sample.row_scenario]
           Sample.db_loaded) = [CallCommit; CallClose]
  /\ exists n m,
       stdout (load_survey_data Sample.env [Sample.row_full; Sample.row_scenario]
                 Sample.db_loaded)
       = ([Line "1. Reading CSV file..."; Found 2;
           Line "2. Connecting to database...";
           Line "3. Loading lookup tables...";
           ShowDict "Age ranges" (dict_of_rows (AgeRanges Sample.db_loaded));
           ShowDict "Regions" (dict_of_rows (Regions Sample.db_loaded));
           ShowDict "Indicators" (dict_of_rows (Indicators Sample.db_loaded));
           Line "4. Processing submissions..."]
          ++ progress_lines 2
          ++ [Line "5. Data loading completed!";
              SubmissionsLoaded n; ScoresLoaded m])%list
       /\ length (Submissions (durable (conn (load_survey_data Sample.env
                    [Sample.row_full; Sample.row_scenario] Sample.db_loaded))))
          = (length (Submissions Sample.db_loaded) + n)%nat
       /\ length (SubmissionScores (durable (conn (load_survey_data Sample.env
                    [Sample.row_full; Sample.row_scenario] Sample.db_loaded))))
          = (length (SubmissionScores Sample.db_loaded) + m)%nat.
Proof.
  assert (H : calls (load_survey_data Sample.env
                       [Sample.row_full; Sample.row_scenario] Sample.db_loaded)
              = [CallCommit; CallClose]) by (vm_compute; reflexivity).
  split; [exact H|].
  apply (committed_run_output Sample.env
           [Sample.row_full; Sample.row_scenario] Sample.db_loaded H).
Defined.

Example progress_lines_120 :
  progress_lines 120 = [Processed 0; Processed 50; Processed 100].
Proof. vm_compute. reflexivity. Qed.

End LoadDataSpec.

(** * Properties of the report generator *)

Module ReportGeneratorSpec.
Import ReportGenerator.

(** ** The first query *)

(** The first row of a sorted table is one of the rows, and none comes
    before it. *)
Lemma head_merge_sort (rows : list Submission) s :
  head (merge_sort created_desc rows) = Some s ->
  In s rows /\ forall s', In s' rows -> created_desc s s'.
Proof.
  intros Hhead.
  pose proof (StronglySorted_merge_sort created_desc rows) as Hsorted.
  pose proof (merge_sort_Permutation created_desc rows) as Hperm.
  destruct (merge_sort created_desc rows) as [|s0 tl]; [discriminate|].
  injection Hhead as ->. apply StronglySorted_inv in Hsorted as [_ Hall].
  split.
  - apply list_elem_of_In. rewrite <- Hperm. left.
  - intros s' Hin. apply list_elem_of_In in Hin. rewrite <- Hperm in Hin.
    apply elem_of_cons in Hin as [-> | Hin].
    + unfold created_desc. lia.
    + rewrite Forall_forall in Hall. auto.
Qed.



Example latest_is_ada :
  select_latest_with_email SampleReport.db_ada
  = Some "3FA85F64-5717-4562-B3FC-2C963F66AFA6".
Proof. vm_compute. reflexivity. Qed.

Example nobody_has_an_email :
  generate_sample_report SampleReport.db_none
  = mk_run ["Generating sample PDF report...";
            "No submissions with email found!"] [] None.
Proof. vm_compute. reflexivity. Qed.

(** ** The user table *)

(** C7, as amended: in the report made for a submission, an age range, a
    region, an email or a first name that is NULL is shown as "N/A"; a
    NULL last name is shown as nothing after the first name and its
    space.  Building the table raises nothing. *)
Theorem null_fields_render_placeholder (submission : Detail) :
  (forall db sid ratio,
     select_latest_with_email db = Some sid ->
     select_detail db sid = Some submission ->
     instability_ratio (fields submission) = Some ratio ->
     user_table <$> files (generate_sample_report db) = [user_data submission])
  /\ (age_range_label submission = None ->
     user_data submission !! 4%nat = Some ["Age Range:"; "N/A"])
  /\ (region_name submission = None ->
     user_data submission !! 3%nat = Some ["Region:"; "N/A"])
  /\ (email (fields submission) = None ->
     user_data submission !! 1%nat = Some ["Email:"; "N/A"])
  /\ (first_name (fields submission) = None ->
     user_data submission !! 0%nat
     = Some ["Name:"; "N/A " +:+ or_else (last_name (fields submission)) ""])
  /\ (last_name (fields submission) = None ->
     user_data submission !! 0%nat
     = Some ["Name:"; or_else (first_name (fields submission)) "N/A" +:+ " "]).
Proof.
  split.
  { intros db sid ratio Hsel Hdet Hratio.
    unfold generate_sample_report, score_data, format_2f.
    rewrite Hsel, Hdet, Hratio. reflexivity. }
  unfold user_data. cbn [lookup list_lookup].
  repeat split; intros ->; reflexivity.
Qed.

(** C7, as stated, fails for the last name: with a first name and a NULL
    last name the cell is the first name and a space, without "N/A". *)
Lemma null_last_name_renders_empty :
  last_name SampleReport.ada = None
  /\ (user_table <$> files (generate_sample_report SampleReport.db_ada))
     = [ [ ["Name:"; "Ada "]; ["Email:"; "ada@example.org"];
           ["Submission Date:"; "2024-01-15"];
           ["Region:"; "N/A"]; ["Age Range:"; "N/A"] ] ].
Proof. split; vm_compute; reflexivity. Qed.

(** ** The scores table *)

(** C10: when the submission the report is made for has a NULL instability
    ratio, formatting the last row of the scores table raises [TypeError]:
    the run ends with that exception, having written no file. *)
Theorem null_instability_ratio_crashes db sid submission :
  select_latest_with_email db = Some sid ->
  select_detail db sid = Some submission ->
  instability_ratio (fields submission) = None ->
  score_data submission (dict_of_rows (select_scores db sid)) = inl TypeError
  /\ generate_sample_report db
     = mk_run ["Generating sample PDF report..."] [] (Some TypeError).
Proof.
  intros Hsel Hdet Hnull.
  assert (Hsc : forall scores, score_data submission scores = inl TypeError).
  { intros scores. unfold score_data. rewrite Hnull. reflexivity. }
  split; [apply Hsc|].
  unfold generate_sample_report. rewrite Hsel, Hdet, Hsc. reflexivity.
Qed.

Lemma null_instability_ratio_crashes_witness :
  select_latest_with_email SampleReport.db_cy
  = Some "99999999-2222-3333-4444-555555555555"
  /\ generate_sample_report SampleReport.db_cy
     = mk_run ["Generating sample PDF report..."] [] (Some TypeError).
Proof.
  split; [vm_compute; reflexivity|].
  refine (proj2 (null_instability_ratio_crashes SampleReport.db_cy
           "99999999-2222-3333-4444-555555555555"
           (mk_detail SampleReport.cy (Some "25-34") None) _ _ _));
    vm_compute; reflexivity.
Defined.

Example report_for_ada :
  score_table <$> files (generate_sample_report SampleReport.db_ada)
  = [ [ ["Indicator"; "Score"]; ["Economic Management"; "4"];
        ["Foreign Policy"; "-2"]; ["Instability Ratio"; "0.42"] ] ].
Proof. vm_compute. reflexivity. Qed.

(** ** The second and third queries *)

(** X14: the labels a LEFT JOIN brings.  A label it brings is that of a
    row of the lookup table with the referenced key, and it brings none
    exactly when the reference is NULL or no row has that key. *)
Theorem left_join_label (table : list (Z * string)) (ref : option Z) :
  (forall label, left_join table ref = Some label ->
     exists k, ref = Some k /\ In (k, label) table)
  /\ (left_join table ref = None <->
      ref = None \/ exists k, ref = Some k /\ forall label, ~ In (k, label) table).
Proof.
  unfold left_join. destruct ref as [k|].
  2:{ split; [discriminate|]. split; [auto|reflexivity]. }
  destruct (List.find (fun r => Z.eqb r.1 k) table) as [[k' label']|] eqn:Hfind; cbn.
  - apply find_some in Hfind as [Hin Hk]. cbn in Hk. apply Z.eqb_eq in Hk as ->. split.
    + intros label [= <-]. eauto.
    + split; [discriminate|]. intros [[=]|(k0 & [= <-] & Hno)].
      destruct (Hno label' Hin).
  - split; [discriminate|]. split; [|reflexivity]. intros _. right.
    exists k. split; [reflexivity|]. intros label Hin.
    pose proof (find_none _ _ Hfind _ Hin) as Hk. cbn in Hk.
    rewrite Z.eqb_refl in Hk. discriminate.
Qed.

(** The rows of the third query are the pairs of a score of the
    submission and an indicator with the score's key. *)
Lemma select_scores_In db sid name v :
  In (name, v) (select_scores db sid) <->
  exists indicator_id,
    In (sid, indicator_id, v) (SubmissionScores db)
    /\ In (indicator_id, name) (Indicators db).
Proof.
  unfold select_scores. rewrite in_flat_map. split.
  - intros ([[ssid iid] sv] & Hss & Hin).
    destruct (String.eqb_spec ssid sid) as [->|]; [|destruct Hin].
    apply list_elem_of_In, list_elem_of_fmap in Hin as ([iid' name'] & [= -> ->] & Hi).
    apply list_elem_of_In, filter_In in Hi as [Hi Hk]. cbn in Hk.
    apply Z.eqb_eq in Hk as ->. eauto.
  - intros (iid & Hss & Hi). exists (sid, iid, v). split; [exact Hss|].
    rewrite String.eqb_refl. apply list_elem_of_In, list_elem_of_fmap.
    exists (iid, name). split; [reflexivity|].
    apply list_elem_of_In, filter_In. split; [exact Hi|apply Z.eqb_refl].
Qed.

(** X15: the scores query is the inner join.  It returns an indicator
    name with a value exactly when the submission has a score of that
    value whose indicator key is the key of an indicator of that name; a
    score of another submission, or one whose key is in no row of
    [Indicators], gives no row. *)
Theorem scores_query_is_inner_join db sid :
  (forall name v,
     In (name, v) (select_scores db sid) <->
     exists indicator_id,
       In (sid, indicator_id, v) (SubmissionScores db)
       /\ In (indicator_id, name) (Indicators db))
  /\ ((forall indicator_id v, ~ In (sid, indicator_id, v) (SubmissionScores db)) ->
      select_scores db sid = []).
Proof.
  split; [intros; apply select_scores_In|].
  intros Hnone. destruct (select_scores db sid) as [|[name v] rest] eqn:Hs; [reflexivity|].
  assert (Hin : In (name, v) (select_scores db sid)) by (rewrite Hs; left; reflexivity).
  apply select_scores_In in Hin as (iid & Hss & _). destruct (Hnone iid v Hss).
Qed.

(** ** The dictionary of scores *)

Lemma score_dict_snoc rows r :
  dict_of_rows (rows ++ [r]) = dict_set r.1 r.2 (dict_of_rows rows).
Proof. unfold dict_of_rows. rewrite foldl_snoc. reflexivity. Qed.

Lemma dict_set_keys k v d k' :
  k' ∈ (dict_set k v d).*1 <-> k' = k \/ k' ∈ d.*1.
Proof.
  induction d as [|[k0 v0] d IH]; cbn.
  - rewrite list_elem_of_singleton, elem_of_nil. tauto.
  - destruct (String.eqb_spec k0 k) as [->|Hne]; cbn; rewrite !elem_of_cons.
    + tauto.
    + rewrite IH. tauto.
Qed.

Lemma dict_set_NoDup k v d : NoDup d.*1 -> NoDup (dict_set k v d).*1.
Proof.
  induction d as [|[k0 v0] d IH]; cbn; intros Hnd.
  - apply NoDup_singleton.
  - apply NoDup_cons in Hnd as [Hk0 Hnd].
    destruct (String.eqb_spec k0 k) as [->|Hne]; cbn; apply NoDup_cons.
    + done.
    + split; [|auto]. rewrite dict_set_keys. intros [->|H]; [done|]. exact (Hk0 H).
Qed.

Lemma dict_set_here k v d : (k, v) ∈ dict_set k v d.
Proof.
  induction d as [|[k0 v0] d IH]; cbn; [apply list_elem_of_here|].
  destruct (String.eqb k0 k); [apply list_elem_of_here|apply list_elem_of_further, IH].
Qed.

Lemma dict_set_other k v d k' v' :
  k' <> k -> (k', v') ∈ d -> (k', v') ∈ dict_set k v d.
Proof.
  intros Hne. induction d as [|[k0 v0] d IH]; cbn; [intros []%elem_of_nil|].
  intros [[= <- <-]|Hin]%elem_of_cons.
  - destruct (String.eqb_spec k' k); [done|apply list_elem_of_here].
  - destruct (String.eqb k0 k); apply list_elem_of_further; auto.
Qed.

Lemma dict_set_inv k v d k' v' :
  NoDup d.*1 -> (k', v') ∈ dict_set k v d ->
  (k' = k /\ v' = v) \/ (k' <> k /\ (k', v') ∈ d).
Proof.
  induction d as [|[k0 v0] d IH]; cbn; intros Hnd.
  - intros [= -> ->]%list_elem_of_singleton. auto.
  - apply NoDup_cons in Hnd as [Hk0 Hnd].
    destruct (String.eqb_spec k0 k) as [->|Hne].
    + intros [[= -> ->]|Hin]%elem_of_cons; [auto|].
      right. split; [|apply list_elem_of_further, Hin].
      intros ->. apply Hk0. apply (list_elem_of_fmap_2 fst _ _ Hin).
    + intros [[= -> ->]|Hin]%elem_of_cons.
      * right. split; [done|apply list_elem_of_here].
      * destruct (IH Hnd Hin) as [?|[? ?]]; [auto|].
        right. split; [done|apply list_elem_of_further; done].
Qed.

Lemma dict_of_rows_NoDup rows : NoDup (dict_of_rows rows).*1.
Proof.
  induction rows as [|r rows IH] using rev_ind; [constructor|].
  rewrite score_dict_snoc. apply dict_set_NoDup, IH.
Qed.

Lemma dict_of_rows_keys rows k : k ∈ (dict_of_rows rows).*1 <-> k ∈ rows.*1.
Proof.
  induction rows as [|r rows IH] using rev_ind; [reflexivity|].
  rewrite score_dict_snoc, dict_set_keys, fmap_app, elem_of_app, IH. cbn.
  rewrite list_elem_of_singleton. tauto.
Qed.

Lemma score_dict_last rows : forall pre k v post,
  rows = (pre ++ (k, v) :: post)%list -> k ∉ post.*1 -> (k, v) ∈ dict_of_rows rows.
Proof.
  intros pre k v post. revert rows.
  induction post as [|r post IH] using rev_ind; intros rows -> Hpost.
  - rewrite score_dict_snoc. apply dict_set_here.
  - rewrite fmap_app in Hpost. apply not_elem_of_app in Hpost as [Hpost Hr].
    rewrite app_comm_cons, app_assoc, score_dict_snoc.
    apply dict_set_other; [|apply (IH _ eq_refl Hpost)].
    intros ->. apply Hr. apply list_elem_of_singleton. reflexivity.
Qed.

Lemma dict_of_rows_inv rows : forall k v,
  (k, v) ∈ dict_of_rows rows ->
  exists pre post, rows = (pre ++ (k, v) :: post)%list /\ k ∉ post.*1.
Proof.
  induction rows as [|[k0 v0] rows IH] using rev_ind; intros k v.
  - intros []%elem_of_nil.
  - rewrite score_dict_snoc. cbn [fst snd].
    intros [[-> ->]|[Hne Hin]]%dict_set_inv; [| |apply dict_of_rows_NoDup].
    + exists rows, []. split; [reflexivity|apply not_elem_of_nil].
    + destruct (IH _ _ Hin) as (pre & post & -> & Hpost).
      exists pre, (post ++ [(k0, v0)])%list. split; [by rewrite <- app_assoc|].
      rewrite fmap_app. apply not_elem_of_app. split; [exact Hpost|].
      cbn. rewrite list_elem_of_singleton. exact Hne.
Qed.

(** X16: one entry for each indicator, the last value kept.  The
    dictionary built from the rows of the scores query has no name twice,
    has exactly the names of the rows, and gives a name the value of the
    last row with that name. *)
Theorem score_dict_keeps_last_value (rows : list (string * Z)) :
  NoDup (dict_of_rows rows).*1
  /\ (forall k, k ∈ (dict_of_rows rows).*1 <-> k ∈ rows.*1)
  /\ (forall k v,
        (k, v) ∈ dict_of_rows rows <->
        exists pre post, rows = (pre ++ (k, v) :: post)%list /\ k ∉ post.*1).
Proof.
  split; [apply dict_of_rows_NoDup|]. split; [apply dict_of_rows_keys|].
  intros k v. split; [apply dict_of_rows_inv|].
  intros (pre & post & Hrows & Hpost). exact (score_dict_last _ _ _ _ _ Hrows Hpost).
Qed.

Example scores_of_ada :
  dict_of_rows (select_scores SampleReport.db_ada "3FA85F64-5717-4562-B3FC-2C963F66AFA6")
  = [("Economic Management", 4); ("Foreign Policy", -2)].
Proof. vm_compute. reflexivity. Qed.

(** ** The run of the report as a whole *)

Lemma select_latest_found db sid :
  select_latest_with_email db = Some sid ->
  exists submission,
    select_detail db sid = Some submission
    /\ submission_id (fields submission) = sid.
Proof.
  unfold select_latest_with_email, select_detail. intros Hsel.
  destruct (head (merge_sort created_desc (List.filter has_email (Submissions db))))
    as [s|] eqn:Hhead; [|discriminate].
  injection Hsel as <-. apply head_merge_sort in Hhead as [Hin _].
  apply filter_In in Hin as [Hin _].
  destruct (List.find (fun s0 => String.eqb (submission_id s0) (submission_id s))
              (Submissions db)) as [s'|] eqn:Hfind; cbn.
  - apply find_some in Hfind as [_ Heq%String.eqb_eq]. eauto.
  - pose proof (find_none _ _ Hfind s Hin) as Hs. cbn in Hs.
    rewrite String.eqb_refl in Hs. discriminate.
Qed.

(** The run that writes a file, in full. *)
Lemma generated_file db pdf :
  In pdf (files (generate_sample_report db)) ->
  exists sid submission ratio text,
    select_latest_with_email db = Some sid
    /\ select_detail db sid = Some submission
    /\ submission_id (fields submission) = sid
    /\ instability_ratio (fields submission) = Some ratio
    /\ format_2f (Some ratio) = inr text
    /\ pdf = mk_pdf ("stability_report_" +:+ sid +:+ ".pdf") (user_data submission)
               ((["Indicator"; "Score"]
                 :: ((fun item : string * Z => [item.1; pretty item.2])
                     <$> dict_of_rows (select_scores db sid)))
                ++ [["Instability Ratio"; text]])
    /\ generate_sample_report db
       = mk_run ["Generating sample PDF report...";
                 "PDF report generated: " +:+ ("stability_report_" +:+ sid +:+ ".pdf")]
                [pdf] None.
Proof.
  unfold generate_sample_report.
  destruct (select_latest_with_email db) as [sid|] eqn:Hsel; [|intros []].
  destruct (select_latest_found _ _ Hsel) as (submission & Hdet & Hid).
  rewrite Hdet. unfold score_data.
  destruct (instability_ratio (fields submission)) as [ratio|] eqn:Hratio; [|intros []].
  cbn [format_2f files]. intros [<-|[]].
  exists sid, submission, ratio. eexists. repeat (split; [done|]). done.
Qed.

(** X17: how a run of the report can end.  It raises nothing or
    [TypeError], never for a submission that has gone missing between the
    queries; it writes at most one file, none when it raises; and the
    file it writes is named after the selected submission, holds that
    submission's user table, and is announced on the last line
    printed. *)
Theorem report_outcomes db :
  (raised (generate_sample_report db) = None
   \/ raised (generate_sample_report db) = Some TypeError)
  /\ (raised (generate_sample_report db) = Some TypeError ->
      files (generate_sample_report db) = [])
  /\ (length (files (generate_sample_report db)) <= 1)%nat
  /\ (forall pdf, In pdf (files (generate_sample_report db)) ->
        exists sid submission,
          select_latest_with_email db = Some sid
          /\ select_detail db sid = Some submission
          /\ submission_id (fields submission) = sid
          /\ filename pdf = "stability_report_" +:+ sid +:+ ".pdf"
          /\ user_table pdf = user_data submission
          /\ raised (generate_sample_report db) = None
          /\ last (stdout (generate_sample_report db))
             = Some ("PDF report generated: " +:+ filename pdf)).
Proof.
  split; [|split; [|split]].
  - unfold generate_sample_report.
    destruct (select_latest_with_email db) as [sid|] eqn:Hsel; [|left; reflexivity].
    destruct (select_latest_found _ _ Hsel) as (submission & -> & _).
    unfold score_data.
    destruct (instability_ratio (fields submission)); cbn; auto.
  - unfold generate_sample_report.
    destruct (select_latest_with_email db) as [sid|]; [|reflexivity].
    destruct (select_detail db sid) as [submission|]; [|reflexivity].
    destruct (score_data submission _); [reflexivity|discriminate].
  - unfold generate_sample_report.
    destruct (select_latest_with_email db) as [sid|]; [|cbn; lia].
    destruct (select_detail db sid) as [submission|]; [|cbn; lia].
    destruct (score_data submission _); cbn; lia.
  - intros pdf Hpdf.
    destruct (generated_file _ _ Hpdf)
      as (sid & submission & ratio & text & Hsel & Hdet & Hid & _ & _ & -> & ->).
    exists sid, submission. cbn. done.
Qed.

Example report_for_ada_outcome :
  stdout (generate_sample_report SampleReport.db_ada)
  = ["Generating sample PDF report...";
     "PDF report generated: stability_report_3FA85F64-5717-4562-B3FC-2C963F66AFA6.pdf"].
Proof. vm_compute. reflexivity. Qed.

Lemma string_length_app (a b : string) :
  String.length (a +:+ b) = (String.length a + String.length b)%nat.
Proof.
  induction a as [|c a IH]; [reflexivity|].
  change (String c a +:+ b) with (String c (a +:+ b)).
  cbn [String.length Nat.add]. f_equal. exact IH.
Qed.

Lemma string_app_inv_tail (a b s : string) : a +:+ s = b +:+ s -> a = b.
Proof.
  revert b. induction a as [|c a IH]; intros [|c' b] H.
  - reflexivity.
  - apply (f_equal String.length) in H. rewrite !string_length_app in H.
    cbn [String.length] in H. lia.
  - apply (f_equal String.length) in H. rewrite !string_length_app in H.
    cbn [String.length] in H. lia.
  - change (String c (a +:+ s) = String c' (b +:+ s)) in H.
    injection H as -> H. f_equal. auto.
Qed.

Lemma report_name_inj (sid1 sid2 : string) :
  "stability_report_" +:+ sid1 +:+ ".pdf" = "stability_report_" +:+ sid2 +:+ ".pdf" ->
  sid1 = sid2.
Proof.
  intros H. apply (string_app_inv_tail _ _ ".pdf").
  apply (inj (String.app "stability_report_")). exact H.
Qed.

(** X18: reports of different submissions have different names.  When
    two runs, over any two databases, write files of the same name, they
    selected the same submission ID. *)
Theorem same_file_name_same_submission db1 db2 pdf1 pdf2 sid1 sid2 :
  select_latest_with_email db1 = Some sid1 ->
  select_latest_with_email db2 = Some sid2 ->
  In pdf1 (files (generate_sample_report db1)) ->
  In pdf2 (files (generate_sample_report db2)) ->
  filename pdf1 = filename pdf2 ->
  sid1 = sid2.
Proof.
  intros Hs1 Hs2 Hp1 Hp2 Hname.
  destruct (generated_file _ _ Hp1) as (s1 & ? & ? & ? & Hs1' & _ & _ & _ & _ & -> & _).
  destruct (generated_file _ _ Hp2) as (s2 & ? & ? & ? & Hs2' & _ & _ & _ & _ & -> & _).
  cbn [filename] in Hname. apply report_name_inj in Hname. congruence.
Qed.

Lemma same_file_name_same_submission_witness :
  (In SampleReport.pdf_ada (files (generate_sample_report SampleReport.db_ada))
   /\ In SampleReport.pdf_ada (files (generate_sample_report SampleReport.db_ada_bob)))
  /\ select_latest_with_email SampleReport.db_ada
     = select_latest_with_email SampleReport.db_ada_bob.
Proof.
  assert (H1 : In SampleReport.pdf_ada
                 (files (generate_sample_report SampleReport.db_ada)))
    by (left; vm_compute; reflexivity).
  assert (H2 : In SampleReport.pdf_ada
                 (files (generate_sample_report SampleReport.db_ada_bob)))
    by (left; vm_compute; reflexivity).
  split; [split; assumption|].
  assert (Hs1 : select_latest_with_email SampleReport.db_ada
                = Some "3FA85F64-5717-4562-B3FC-2C963F66AFA6")
    by (vm_compute; reflexivity).
  assert (Hs2 : select_latest_with_email SampleReport.db_ada_bob
                = Some "3FA85F64-5717-4562-B3FC-2C963F66AFA6")
    by (vm_compute; reflexivity).
  rewrite Hs1, Hs2. apply (f_equal Some).
  exact (same_file_name_same_submission _ _ _ _ _ _ Hs1 Hs2 H1 H2 eq_refl).
Defined.

(** ** The two tables *)




(** X20: what the scores table of a written report holds.  After the
    header it has exactly the rows of the dictionary built from the scores
    query for the selected submission: a row for an indicator name if and
    only if [SubmissionScores] has a score of that submission under an
    indicator of that name, no name twice, each with a value recorded for
    that submission under that name; and it ends with the formatted
    instability ratio. *)
Theorem score_table_of_report db pdf :
  In pdf (files (generate_sample_report db)) ->
  exists sid submission ratio text,
    select_latest_with_email db = Some sid
    /\ select_detail db sid = Some submission
    /\ instability_ratio (fields submission) = Some ratio
    /\ format_2f (Some ratio) = inr text
    /\ score_table pdf
       = ((["Indicator"; "Score"]
           :: ((fun item : string * Z => [item.1; pretty item.2])
               <$> dict_of_rows (select_scores db sid)))
          ++ [["Instability Ratio"; text]])%list
    /\ NoDup (dict_of_rows (select_scores db sid)).*1
    /\ (forall name,
          name ∈ (dict_of_rows (select_scores db sid)).*1 <->
          exists indicator_id v,
            In (sid, indicator_id, v) (SubmissionScores db)
            /\ In (indicator_id, name) (Indicators db))
    /\ (forall name v,
          (name, v) ∈ dict_of_rows (select_scores db sid) ->
          exists indicator_id,
            In (sid, indicator_id, v) (SubmissionScores db)
            /\ In (indicator_id, name) (Indicators db)).
Proof.
  intros Hpdf.
  destruct (generated_file _ _ Hpdf)
    as (sid & submission & ratio & text & Hsel & Hdet & _ & Hratio & Htext & -> & _).
  exists sid, submission, ratio, text.
  repeat (split; [done|]). split; [apply dict_of_rows_NoDup|]. split.
  - intros name. rewrite dict_of_rows_keys, list_elem_of_fmap. split.
    + intros ([name' v] & -> & Hin). apply list_elem_of_In, select_scores_In in Hin
        as (iid & Hss & Hi). eauto.
    + intros (iid & v & Hss & Hi). exists (name, v). split; [reflexivity|].
      apply list_elem_of_In, select_scores_In. eauto.
  - intros name v (pre & post & Hrows & _)%dict_of_rows_inv.
    apply select_scores_In. rewrite Hrows. apply in_or_app. right. left. reflexivity.
Qed.

Lemma score_table_of_report_witness :
  In SampleReport.pdf_ada (files (generate_sample_report SampleReport.db_ada))
  /\ exists sid submission ratio text,
       select_latest_with_email SampleReport.db_ada = Some sid
       /\ select_detail SampleReport.db_ada sid = Some submission
       /\ instability_ratio (fields submission) = Some ratio
       /\ format_2f (Some ratio) = inr text
       /\ score_table SampleReport.pdf_ada
          = ((["Indicator"; "Score"]
              :: ((fun item : string * Z => [item.1; pretty item.2])
                  <$> dict_of_rows (select_scores SampleReport.db_ada sid)))
             ++ [["Instability Ratio"; text]])%list
       /\ NoDup (dict_of_rows (select_scores SampleReport.db_ada sid)).*1
       /\ (forall name,
             name ∈ (dict_of_rows (select_scores SampleReport.db_ada sid)).*1 <->
             exists indicator_id v,
               In (sid, indicator_id, v) (SubmissionScores SampleReport.db_ada)
               /\ In (indicator_id, name) (Indicators SampleReport.db_ada))
       /\ (forall name v,
             (name, v) ∈ dict_of_rows (select_scores SampleReport.db_ada sid) ->
             exists indicator_id,
               In (sid, indicator_id, v) (SubmissionScores SampleReport.db_ada)
               /\ In (indicator_id, name) (Indicators SampleReport.db_ada)).
Proof.
  assert (H : In SampleReport.pdf_ada
                (files (generate_sample_report SampleReport.db_ada)))
    by (left; vm_compute; reflexivity).
  split; [exact H|].
  exact (score_table_of_report SampleReport.db_ada SampleReport.pdf_ada H).
Defined.

(** ** From the first query to the second *)

Lemma NoDup_fmap_eq {A B} (f : A -> B) (l : list A) x y :
  NoDup (f <$> l) -> In x l -> In y l -> f x = f y -> x = y.
Proof.
  induction l as [|a l IH]; [intros _ []|]. cbn.
  intros [Ha Hnd]%NoDup_cons [->|Hx] [->|Hy] Heq; auto.
  - destruct Ha. rewrite Heq. apply list_elem_of_fmap_2, list_elem_of_In, Hy.
  - destruct Ha. rewrite <- Heq. apply list_elem_of_fmap_2, list_elem_of_In, Hx.
Qed.

(** X3: the details shown are those of the selected submission.  When
    submission IDs are unique, the row the second query returns is the row
    the first query selected: it has an email, no submission with an email
    was created after it, and its two labels are those its references
    join to. *)
Theorem detail_is_the_selected_submission db sid :
  NoDup (submission_id <$> Submissions db) ->
  select_latest_with_email db = Some sid ->
  exists s,
    In s (Submissions db)
    /\ submission_id s = sid
    /\ email s <> None
    /\ (forall s', In s' (Submissions db) -> email s' <> None ->
                   ordinal (created_at s') <= ordinal (created_at s))
    /\ select_detail db sid
       = Some (mk_detail s (left_join (AgeRanges db) (age_range_id s))
                           (left_join (Regions db) (region_id s))).
Proof.
  intros Hnd Hsel. pose proof Hsel as Hsel'.
  unfold select_latest_with_email in Hsel.
  destruct (head (merge_sort created_desc (List.filter has_email (Submissions db))))
    as [s|] eqn:Hhead; [|discriminate].
  injection Hsel as <-. apply head_merge_sort in Hhead as [Hin Hmax].
  apply filter_In in Hin as [Hin He]. exists s.
  split; [exact Hin|]. split; [reflexivity|].
  split; [unfold has_email in He; destruct (email s); [discriminate|discriminate]|].
  split.
  { intros s' Hin' He'. apply Hmax, filter_In. split; [exact Hin'|].
    unfold has_email. destruct (email s'); [reflexivity|contradiction]. }
  unfold select_detail.
  destruct (List.find (fun s0 => String.eqb (submission_id s0) (submission_id s))
              (Submissions db)) as [s'|] eqn:Hfind; cbn.
  - apply find_some in Hfind as [Hin' Heq%String.eqb_eq].
    rewrite (NoDup_fmap_eq submission_id _ s' s Hnd Hin' Hin Heq). reflexivity.
  - pose proof (find_none _ _ Hfind s Hin) as Hs. cbn in Hs.
    rewrite String.eqb_refl in Hs. discriminate.
Qed.

Lemma detail_is_the_selected_submission_witness :
  (NoDup (submission_id <$> Submissions SampleReport.db_ada)
   /\ select_latest_with_email SampleReport.db_ada
      = Some "3FA85F64-5717-4562-B3FC-2C963F66AFA6")
  /\ exists s,
       In s (Submissions SampleReport.db_ada)
       /\ submission_id s = "3FA85F64-5717-4562-B3FC-2C963F66AFA6"
       /\ email s <> None
       /\ (forall s', In s' (Submissions SampleReport.db_ada) -> email s' <> None ->
                      ordinal (created_at s') <= ordinal (created_at s))
       /\ select_detail SampleReport.db_ada "3FA85F64-5717-4562-B3FC-2C963F66AFA6"
          = Some (mk_detail s
                    (left_join (AgeRanges SampleReport.db_ada) (age_range_id s))
                    (left_join (Regions SampleReport.db_ada) (region_id s))).
Proof.
  assert (H1 : NoDup (submission_id <$> Submissions SampleReport.db_ada)).
  { cbn. repeat (apply NoDup_cons; split;
                 [rewrite ?elem_of_cons, elem_of_nil; intros H; decompose [or] H;
                  discriminate || contradiction|]).
    apply NoDup_nil. done. }
  assert (H2 : select_latest_with_email SampleReport.db_ada
               = Some "3FA85F64-5717-4562-B3FC-2C963F66AFA6")
    by (vm_compute; reflexivity).
  split; [split; assumption|].
  exact (detail_is_the_selected_submission SampleReport.db_ada _ H1 H2).
Defined.

(** With an ID that two rows share, the second query returns the first
    row with that ID, which need not be the selected one: here the report
    is made for a row without an email. *)
Example shadowed_submission :
  select_latest_with_email SampleReport.db_shadow
  = Some "3FA85F64-5717-4562-B3FC-2C963F66AFA6"
  /\ (user_table <$> files (generate_sample_report SampleReport.db_shadow))
     = [ [ ["Name:"; "Shadow "]; ["Email:"; "N/A"];
           ["Submission Date:"; "2020-05-05"];
           ["Region:"; "N/A"]; ["Age Range:"; "N/A"] ] ].
Proof. split; vm_compute; reflexivity. Qed.

End ReportGeneratorSpec.
